(** * drv-iio-buffer-accel: the buffered IIO accelerometer driver

    A shallow embedding of [src/drv-iio-buffer-accel.c].  The driver keeps
    its session in one global pointer ([drv_data]) and its reassembly
    progress in a function-local [static] counter ([read_size_ctr]); both
    are fields of the [World] that every operation threads.  GLib, GUdev
    and the helpers of [iio-buffer-utils.h] are collaborators: the former
    are modelled by their documented behaviour, the latter are an
    interface ([IIOBufferUtils]). *)

From Stdlib Require Import ZArith PrimFloat Uint63 Strings.Byte Lia.
From stdpp Require Import gmap strings list.

Open Scope Z_scope.

Set Warnings "-clear-no-such-hyp".

(** ** Machine integers *)

(** [gsize] and [gulong] are 64-bit unsigned; arithmetic on them wraps. *)
Definition gsize_modulus : Z := 2 ^ 64.
Definition gsize_wrap (z : Z) : Z := z mod gsize_modulus.

(** [int] is 32-bit two's complement. *)
Definition int_modulus : Z := 2 ^ 32.
Definition int_wrap (z : Z) : Z :=
  (z + 2 ^ 31) mod int_modulus - 2 ^ 31.

(** Unary minus on [int] (lines 52-53). *)
Definition int_neg (z : Z) : Z := int_wrap (- z).

(** ** Doubles

    [gdouble] is IEEE binary64, which is what Rocq's primitive floats
    are.  The usual arithmetic conversion of [int * double] turns the
    integer into a double first (exact for 32-bit values). *)
Definition gdouble := float.

Definition double_of_int (z : Z) : gdouble :=
  if z <? 0 then PrimFloat.opp (PrimFloat.of_uint63 (Uint63.of_Z (- z)))
  else PrimFloat.of_uint63 (Uint63.of_Z z).

Definition int_times_double (i : Z) (d : gdouble) : gdouble :=
  PrimFloat.mul (double_of_int i) d.

(** ** GLib strings *)

(** [strcmp] is only specified up to the sign of its result. *)
Definition strcmp (s t : string) : Z :=
  match String.compare s t with
  | Eq => 0
  | Lt => -1
  | Gt => 1
  end.

(** [g_strcmp0]: like [strcmp], but a NULL string sorts before every
    other string and equals NULL. *)
Definition g_strcmp0 (str1 str2 : option string) : Z :=
  match str1, str2 with
  | None, None => 0
  | None, Some _ => -1
  | Some _, None => 1
  | Some s, Some t => strcmp s t
  end.

(** ** GUdev devices *)

Record GUdevDevice := {
  udev_subsystem : option string;
  udev_sysfs_attrs : gmap string string;
  udev_number : option string;
  udev_sysfs_path : string;
  udev_device_file : option string;
}.

Definition g_udev_device_get_subsystem (d : GUdevDevice) : option string :=
  udev_subsystem d.
Definition g_udev_device_get_sysfs_attr (d : GUdevDevice) (name : string)
  : option string := udev_sysfs_attrs d !! name.
Definition g_udev_device_get_number (d : GUdevDevice) : option string :=
  udev_number d.
Definition g_udev_device_get_device_file (d : GUdevDevice) : option string :=
  udev_device_file d.

(** ** GIO *)

Inductive GIOStatus :=
| G_IO_STATUS_ERROR
| G_IO_STATUS_NORMAL
| G_IO_STATUS_EOF
| G_IO_STATUS_AGAIN.

Inductive GIOCondition :=
| G_IO_IN
| G_IO_OUT
| G_IO_PRI
| G_IO_ERR
| G_IO_HUP
| G_IO_NVAL.

Definition GIOStatus_eqb (a b : GIOStatus) : bool :=
  match a, b with
  | G_IO_STATUS_ERROR, G_IO_STATUS_ERROR
  | G_IO_STATUS_NORMAL, G_IO_STATUS_NORMAL
  | G_IO_STATUS_EOF, G_IO_STATUS_EOF
  | G_IO_STATUS_AGAIN, G_IO_STATUS_AGAIN => true
  | _, _ => false
  end.

Definition GIOCondition_eqb (a b : GIOCondition) : bool :=
  match a, b with
  | G_IO_IN, G_IO_IN | G_IO_OUT, G_IO_OUT | G_IO_PRI, G_IO_PRI
  | G_IO_ERR, G_IO_ERR | G_IO_HUP, G_IO_HUP | G_IO_NVAL, G_IO_NVAL => true
  | _, _ => false
  end.

(** What the device will hand to successive reads of its character
    stream.  [Chunk bs]: [bs] are available to one read (a read that asks
    for fewer takes a prefix and leaves the rest); [WouldBlock]: nothing
    is available at this point (EAGAIN); [Eof] and [IoError]: the other
    two statuses. *)
Inductive ChanEvent :=
| Chunk (bs : list byte)
| WouldBlock
| Eof
| IoError.

(** [g_io_channel_read_chars (channel, buf, count, &bytes_read, &err)] on
    an unencoded channel: status, the bytes stored at the start of [buf],
    and what is left of the stream.  A [count] of 0 returns NORMAL with no
    byte at once. *)
Definition g_io_channel_read_chars (count : Z) (s : list ChanEvent)
  : GIOStatus * list byte * list ChanEvent :=
  if count =? 0 then (G_IO_STATUS_NORMAL, [], s)
  else
    match s with
    | [] => (G_IO_STATUS_AGAIN, [], [])
    | WouldBlock :: r => (G_IO_STATUS_AGAIN, [], r)
    | Eof :: r => (G_IO_STATUS_EOF, [], r)
    | IoError :: r => (G_IO_STATUS_ERROR, [], r)
    | Chunk bs :: r =>
        let n := Z.to_nat count in
        if (length bs <=? n)%nat then (G_IO_STATUS_NORMAL, bs, r)
        else (G_IO_STATUS_NORMAL, take n bs, Chunk (drop n bs) :: r)
    end.

(** An upper bound on the number of reads that return NORMAL with a
    non-zero [count] before the stream is exhausted. *)
Fixpoint stream_measure (s : list ChanEvent) : nat :=
  match s with
  | [] => 0
  | Chunk bs :: r => S (length bs + stream_measure r)
  | _ :: r => S (stream_measure r)
  end.

(** ** The interface of iio-buffer-utils.h *)

(** The buffer session is opaque to the driver: it reads [scan_size],
    creates and frees sessions and decodes one channel with
    [process_scan_1].  That helper takes the scan buffer and the session
    by pointer ([None] for NULL) and writes its three results through
    pointers, so it is a function from the previous contents of the three
    cells to their new contents (it may leave a cell alone). *)
Class IIOBufferUtils := {
  BufferDrvData : Type;
  scan_size : BufferDrvData -> Z;
  buffer_drv_data_new : GUdevDevice -> string -> option BufferDrvData;
  process_scan_1 :
    option (list byte) -> option BufferDrvData -> string ->
    Z * gdouble * bool -> Z * gdouble * bool;
}.

(** ** Driver data and the world around it *)

(** [IIOSensorData]: a buffer pointer (NULL or the contents of the block
    it points to) and the size of the last read into it. *)
Record IIOSensorData := {
  read_size : Z;
  data : option (list byte);
}.

(** Modelled from the spec: [AccelReadings] is declared in [drivers.h],
    which is not part of the sources at hand; the spec's Reading is three
    physical-unit values, so the three fields are doubles. *)
Record AccelReadings := {
  accel_x : gdouble;
  accel_y : gdouble;
  accel_z : gdouble;
}.

(** Function and data pointers handed over by the host are tokens. *)
Definition ReadingsUpdateFunc := nat.
Definition gpointer := nat.

(** A [GIOChannel] opened on a file. *)
Record GIOChannel := {
  chan_file : string;
  chan_nonblock : bool;
}.

(** Live allocations, by kind: what [g_new0], [g_strdup_printf],
    [g_malloc], [g_object_ref] and the constructors take and what
    [g_free], [g_object_unref] and the destructors give back. *)
Record Heap := {
  h_structs : Z;    (* DrvData blocks *)
  h_strings : Z;    (* trigger names *)
  h_scratch : Z;    (* scan buffers of read_orientation *)
  h_udev : Z;       (* udev client and enumerated device list *)
  h_bufdata : Z;    (* BufferDrvData sessions *)
  h_channels : Z;   (* GIOChannel references *)
  h_devrefs : Z;    (* references taken on the device *)
}.

Definition heap_empty : Heap := Build_Heap 0 0 0 0 0 0 0.

Inductive Resource :=
| RStruct | RString | RScratch | RUdev | RBufData | RChannel | RDevRef.

Definition heap_add (k : Resource) (d : Z) (h : Heap) : Heap :=
  match k with
  | RStruct => Build_Heap (h_structs h + d) (h_strings h) (h_scratch h) (h_udev h) (h_bufdata h) (h_channels h) (h_devrefs h)
  | RString => Build_Heap (h_structs h) (h_strings h + d) (h_scratch h) (h_udev h) (h_bufdata h) (h_channels h) (h_devrefs h)
  | RScratch => Build_Heap (h_structs h) (h_strings h) (h_scratch h + d) (h_udev h) (h_bufdata h) (h_channels h) (h_devrefs h)
  | RUdev => Build_Heap (h_structs h) (h_strings h) (h_scratch h) (h_udev h + d) (h_bufdata h) (h_channels h) (h_devrefs h)
  | RBufData => Build_Heap (h_structs h) (h_strings h) (h_scratch h) (h_udev h) (h_bufdata h + d) (h_channels h) (h_devrefs h)
  | RChannel => Build_Heap (h_structs h) (h_strings h) (h_scratch h) (h_udev h) (h_bufdata h) (h_channels h + d) (h_devrefs h)
  | RDevRef => Build_Heap (h_structs h) (h_strings h) (h_scratch h) (h_udev h) (h_bufdata h) (h_channels h) (h_devrefs h + d)
  end.

(** What the platform answers, and the indeterminate contents of
    uninitialised storage. *)
Record Env := {
  udev_iio_devices : list GUdevDevice; (* the "iio" subsystem of the udev database *)
  open_fails : bool;       (* g_io_channel_new_file sets its GError *)
  encoding_fails : bool;   (* g_io_channel_set_encoding sets its GError *)
  nonblock_fails : bool;   (* g_io_channel_set_flags returns ERROR *)
  uninit_accel_x : Z;      (* the locals of process_scan before any write *)
  uninit_accel_y : Z;
  uninit_accel_z : Z;
  uninit_scale : gdouble;
  uninit_present : bool;
  uninit_byte : byte;      (* what a fresh g_malloc block holds *)
}.

Section Driver.

Context {U : IIOBufferUtils}.

(** [DrvData] (lines 21-31).  Pointers are options, [None] for NULL. *)
Record DrvData := {
  gio_r : option GIOChannel;
  io_source : Z;
  callback_func : ReadingsUpdateFunc;
  user_data : gpointer;
  dev : option GUdevDevice;
  dev_path : option string;
  device_id : Z;
  buffer_data : option BufferDrvData;
}.

(** A call of the host's callback: function, readings, user data. *)
Record CallbackCall := {
  cb_func : ReadingsUpdateFunc;
  cb_readings : AccelReadings;
  cb_user_data : gpointer;
}.

(** A call of [g_io_channel_read_chars]: the count asked for, the status
    and the bytes returned. *)
Record ReadCall := {
  rc_count : Z;
  rc_status : GIOStatus;
  rc_bytes : list byte;
}.

Record World := {
  env : Env;
  drv_data : option DrvData;       (* static DrvData *drv_data (line 33) *)
  read_size_ctr : Z;               (* static gsize read_size_ctr (line 78) *)
  sources : gset Z;                (* sources attached to the main context *)
  next_source_id : Z;              (* the main context's next source id *)
  dev_stream : list ChanEvent;     (* what the device file will deliver *)
  heap : Heap;
  delivered : list CallbackCall;   (* callback calls so far, oldest first *)
  reads : list ReadCall;           (* read calls so far, oldest first *)
}.

Definition set_drv_data (d : option DrvData) (w : World) : World :=
  Build_World (env w) d (read_size_ctr w) (sources w) (next_source_id w)
    (dev_stream w) (heap w) (delivered w) (reads w).
Definition set_read_size_ctr (c : Z) (w : World) : World :=
  Build_World (env w) (drv_data w) c (sources w) (next_source_id w)
    (dev_stream w) (heap w) (delivered w) (reads w).
Definition set_sources (s : gset Z) (w : World) : World :=
  Build_World (env w) (drv_data w) (read_size_ctr w) s (next_source_id w)
    (dev_stream w) (heap w) (delivered w) (reads w).
Definition set_next_source_id (n : Z) (w : World) : World :=
  Build_World (env w) (drv_data w) (read_size_ctr w) (sources w) n
    (dev_stream w) (heap w) (delivered w) (reads w).
Definition set_dev_stream (s : list ChanEvent) (w : World) : World :=
  Build_World (env w) (drv_data w) (read_size_ctr w) (sources w)
    (next_source_id w) s (heap w) (delivered w) (reads w).
Definition set_heap (h : Heap) (w : World) : World :=
  Build_World (env w) (drv_data w) (read_size_ctr w) (sources w)
    (next_source_id w) (dev_stream w) h (delivered w) (reads w).
Definition set_delivered (l : list CallbackCall) (w : World) : World :=
  Build_World (env w) (drv_data w) (read_size_ctr w) (sources w)
    (next_source_id w) (dev_stream w) (heap w) l (reads w).
Definition set_reads (l : list ReadCall) (w : World) : World :=
  Build_World (env w) (drv_data w) (read_size_ctr w) (sources w)
    (next_source_id w) (dev_stream w) (heap w) (delivered w) l.

(** The world at program start: no session, counter 0, nothing
    attached, nothing allocated. *)
Definition initial_world (e : Env) (stream : list ChanEvent) : World :=
  Build_World e None 0 ∅ 1 stream heap_empty [] [].

(** *** Outcomes

    A call returns a value and a new world, aborts the process
    ([g_error], a failed [g_assert], a NULL dereference), or never
    returns. *)
Inductive Outcome (A : Type) :=
| Done (a : A) (w : World)
| Abort
| Diverge.
Arguments Done {A} a w.
Arguments Abort {A}.
Arguments Diverge {A}.

Definition M (A : Type) : Type := World -> Outcome A.

Definition ret {A} (a : A) : M A := fun w => Done a w.
Definition bind {A B} (m : M A) (k : A -> M B) : M B :=
  fun w => match m w with
           | Done a w' => k a w'
           | Abort => Abort
           | Diverge => Diverge
           end.
Definition abort {A} : M A := fun _ => Abort.
Definition get : M World := fun w => Done w w.
Definition modify (f : World -> World) : M unit := fun w => Done tt (f w).

Notation "x <- m ;; k" := (bind m (fun x => k))
  (at level 100, m at next level, right associativity).
Notation "m ;;; k" := (bind m (fun _ => k))
  (at level 100, right associativity).

(** Allocation and release of one resource of a kind. *)
Definition alloc (k : Resource) : M unit :=
  modify (fun w => set_heap (heap_add k 1 (heap w)) w).
Definition release (k : Resource) : M unit :=
  modify (fun w => set_heap (heap_add k (-1) (heap w)) w).

(** [drv_data->...]: dereferencing the global pointer. *)
Definition deref_drv_data : M DrvData :=
  fun w => match drv_data w with
           | Some d => Done d w
           | None => Abort
           end.

Definition set_io_source (v : Z) (d : DrvData) : DrvData :=
  Build_DrvData (gio_r d) v (callback_func d) (user_data d) (dev d)
    (dev_path d) (device_id d) (buffer_data d).
Definition set_buffer_data (b : option BufferDrvData) (d : DrvData) : DrvData :=
  Build_DrvData (gio_r d) (io_source d) (callback_func d) (user_data d)
    (dev d) (dev_path d) (device_id d) b.
Definition set_dev (v : option GUdevDevice) (d : DrvData) : DrvData :=
  Build_DrvData (gio_r d) (io_source d) (callback_func d) (user_data d) v
    (dev_path d) (device_id d) (buffer_data d).
Definition set_dev_path (v : option string) (d : DrvData) : DrvData :=
  Build_DrvData (gio_r d) (io_source d) (callback_func d) (user_data d)
    (dev d) v (device_id d) (buffer_data d).
Definition set_callback (f : ReadingsUpdateFunc) (u : gpointer) (d : DrvData)
  : DrvData :=
  Build_DrvData (gio_r d) (io_source d) f u (dev d) (dev_path d)
    (device_id d) (buffer_data d).
Definition set_gio_r (c : option GIOChannel) (d : DrvData) : DrvData :=
  Build_DrvData c (io_source d) (callback_func d) (user_data d) (dev d)
    (dev_path d) (device_id d) (buffer_data d).

(** [g_new0 (DrvData, 1)]: every field zero. *)
Definition DrvData_zero : DrvData :=
  Build_DrvData None 0 0%nat 0%nat None None 0 None.

(** [drv_data->field = v]. *)
Definition update_drv_data (f : DrvData -> DrvData) : M unit :=
  d <- deref_drv_data ;; modify (set_drv_data (Some (f d))).

(** *** GLib and GUdev calls *)

Definition g_assert (b : bool) : M unit :=
  if b then ret tt else abort.

(** [g_malloc (n)]: NULL for 0 bytes, else a block of indeterminate
    contents. *)
Definition g_malloc (n : Z) : M (option (list byte)) :=
  if n =? 0 then ret None
  else
    w <- get ;;
    alloc RScratch ;;;
    ret (Some (replicate (Z.to_nat n) (uninit_byte (env w)))).

(** [g_free (p)]: nothing for NULL. *)
Definition g_free (k : Resource) {A} (p : option A) : M unit :=
  match p with
  | Some _ => release k
  | None => ret tt
  end.

(** [g_clear_pointer (&drv_data, g_free)]. *)
Definition g_clear_drv_data : M unit :=
  w <- get ;;
  g_free RStruct (drv_data w) ;;;
  modify (set_drv_data None).

(** [%s] prints a NULL string as (null). *)
Definition printf_s (s : option string) : string :=
  match s with
  | Some s => s
  | None => "(null)"
  end.

(** Storing [bs] at the start of the block [buf]. *)
Definition store (bs buf : list byte) : list byte :=
  bs ++ drop (length bs) buf.

(** One [g_io_channel_read_chars (channel, buff.data, count,
    &buff.read_size, &gerr)] on the device stream.  Bytes stored through
    a NULL pointer or past the end of the block stop the process. *)
Definition read_chars (buff : IIOSensorData) (count : Z)
  : M (GIOStatus * IIOSensorData) :=
  w <- get ;;
  let '(status, bs, rest) := g_io_channel_read_chars count (dev_stream w) in
  modify (set_dev_stream rest) ;;;
  modify (fun w => set_reads (reads w ++ [Build_ReadCall count status bs]) w) ;;;
  let n := Z.of_nat (length bs) in
  match data buff with
  | None =>
      if n =? 0 then ret (status, Build_IIOSensorData n None) else abort
  | Some buf =>
      if (length bs <=? length buf)%nat
      then ret (status, Build_IIOSensorData n (Some (store bs buf)))
      else abort
  end.

(** [g_source_remove (tag)]. *)
Definition g_source_remove (tag : Z) : M unit :=
  modify (fun w => set_sources (sources w ∖ {[tag]}) w).

(** [g_io_add_watch (channel, condition, func, user_data)]: the id of
    the new source, taken from the main context's counter; 0 and no
    source for a NULL channel. *)
Definition g_io_add_watch (channel : option GIOChannel) : M Z :=
  match channel with
  | None => ret 0
  | Some _ =>
      w <- get ;;
      let id := next_source_id w in
      modify (fun w => set_sources (sources w ∪ {[id]}) w) ;;;
      modify (set_next_source_id (id + 1)) ;;;
      ret id
  end.

(** [g_io_channel_new_file (filename, "r", &gerr)]: the channel and
    whether [gerr] was set.  A NULL file name returns NULL and leaves
    [gerr] alone. *)
Definition g_io_channel_new_file (filename : option string)
  : M (option GIOChannel * bool) :=
  match filename with
  | None => ret (None, false)
  | Some f =>
      w <- get ;;
      if open_fails (env w) then ret (None, true)
      else alloc RChannel ;;; ret (Some (Build_GIOChannel f false), false)
  end.

(** [g_io_channel_set_encoding (channel, NULL, &gerr)]: whether [gerr]
    was set. *)
Definition g_io_channel_set_encoding (channel : option GIOChannel) : M bool :=
  match channel with
  | None => ret false
  | Some _ => w <- get ;; ret (encoding_fails (env w))
  end.

(** [g_io_channel_set_flags (channel, G_IO_FLAG_NONBLOCK, &gerr)]: the
    status, the channel afterwards and whether [gerr] was set. *)
Definition g_io_channel_set_flags (channel : option GIOChannel)
  : M (GIOStatus * option GIOChannel * bool) :=
  match channel with
  | None => ret (G_IO_STATUS_ERROR, None, false)
  | Some c =>
      w <- get ;;
      if nonblock_fails (env w) then ret (G_IO_STATUS_ERROR, Some c, true)
      else ret (G_IO_STATUS_NORMAL, Some (Build_GIOChannel (chan_file c) true), false)
  end.

(** *** The driver *)

(** [process_scan] (lines 35-62).  The three extractions share the one
    [scale] cell; the callback call is appended to [delivered]. *)
Definition process_scan (d : IIOSensorData) (or_data : DrvData) : M Z :=
  w <- get ;;
  let e := env w in
  let '(accel_x, scale, present_x) :=
    process_scan_1 (data d) (buffer_data or_data) "in_accel_x"
      (uninit_accel_x e, uninit_scale e, uninit_present e) in
  let '(accel_y, scale, present_y) :=
    process_scan_1 (data d) (buffer_data or_data) "in_accel_y"
      (uninit_accel_y e, scale, uninit_present e) in
  let '(accel_z, scale, present_z) :=
    process_scan_1 (data d) (buffer_data or_data) "in_accel_z"
      (uninit_accel_z e, scale, uninit_present e) in
  let accel_x := int_neg accel_x in
  let accel_y := int_neg accel_y in
  let readings :=
    Build_AccelReadings (int_times_double accel_x scale)
      (int_times_double accel_y scale) (int_times_double accel_z scale) in
  modify (fun w =>
    set_delivered
      (delivered w ++
       [Build_CallbackCall (callback_func or_data) readings (user_data or_data)])
      w) ;;;
  ret 1.

(** The body of the read loop (lines 89-96), run after a read that
    returned NORMAL into [buff]. *)
Definition loop_body (buf_size : Z) (buff dat : IIOSensorData)
  : M (IIOSensorData * IIOSensorData) :=
  modify (fun w =>
    set_read_size_ctr (gsize_wrap (read_size_ctr w + read_size buff)) w) ;;;
  w <- get ;;
  (if buf_size <=? read_size_ctr w
   then modify (set_read_size_ctr (gsize_wrap (read_size_ctr w - read_size buff)))
   else ret tt) ;;;
  if buf_size <=? read_size buff then
    g_free RScratch (data dat) ;;;
    p <- g_malloc buf_size ;;
    ret (Build_IIOSensorData (read_size buff) p,
         Build_IIOSensorData (read_size buff) (data buff))
  else ret (buff, dat).

(** The [for] loop (lines 85-97): read, and while the status is NORMAL
    run the body and read again.  [fuel] bounds the number of reads. *)
Fixpoint read_loop (fuel : nat) (buf_size : Z) (buff dat : IIOSensorData)
  : M (GIOStatus * IIOSensorData * IIOSensorData) :=
  match fuel with
  | O => fun _ => Diverge
  | S fuel' =>
      w <- get ;;
      r <- read_chars buff (gsize_wrap (buf_size - read_size_ctr w)) ;;
      let '(status, buff) := r in
      if GIOStatus_eqb status G_IO_STATUS_NORMAL then
        bd <- loop_body buf_size buff dat ;;
        read_loop fuel' buf_size (fst bd) (snd bd)
      else ret (status, buff, dat)
  end.

(** [read_orientation] (lines 64-109).  [user_data] is the pointer that
    [iio_buffer_accel_set_polling] registered, that is [drv_data] itself,
    so [or_data] is the global session.  The [read_size] fields of [buff]
    and [data] are indeterminate until a read or a capture writes them
    and are not read before; they start at 0 here.  The fuel is one more
    than the number of reads the stream can answer with NORMAL when every
    count is positive; it runs out only when the loop does not end. *)
Definition read_orientation (condition : GIOCondition) : M bool :=
  or_data <- deref_drv_data ;;
  bd <- (match buffer_data or_data with
         | Some b => ret b
         | None => abort
         end) ;;
  let buf_size := gsize_wrap (scan_size bd) in
  g_assert (GIOCondition_eqb condition G_IO_IN) ;;;
  p <- g_malloc buf_size ;;
  w <- get ;;
  r <- read_loop (S (stream_measure (dev_stream w))) buf_size
         (Build_IIOSensorData 0 p) (Build_IIOSensorData 0 None) ;;
  let '(status, buff, dat) := r in
  g_assert (GIOStatus_eqb status G_IO_STATUS_AGAIN) ;;;
  (match data dat with
   | Some _ => process_scan dat or_data ;;; g_free RScratch (data dat)
   | None => ret tt
   end) ;;;
  g_free RScratch (data buff) ;;;
  ret true.

(** [get_trigger_name] (lines 111-145): the udev client and the
    enumerated list are released on both paths, the name only when no
    device carries it. *)
Definition get_trigger_name (device : GUdevDevice) : M (option string) :=
  alloc RUdev ;;;
  w <- get ;;
  let devices := udev_iio_devices (env w) in
  alloc RUdev ;;;
  let trigger_name :=
    "accel_3d-dev" +:+ printf_s (g_udev_device_get_number device) in
  alloc RString ;;;
  let has_trigger :=
    existsb
      (fun dev =>
         g_strcmp0 (Some trigger_name) (g_udev_device_get_sysfs_attr dev "name")
         =? 0)
      devices in
  release RUdev ;;;
  release RUdev ;;;
  if has_trigger then ret (Some trigger_name)
  else release RString ;;; ret None.

(** [iio_buffer_accel_discover] (lines 147-158); the debug message
    aside. *)
Definition iio_buffer_accel_discover (device : GUdevDevice) : M bool :=
  if negb (g_strcmp0 (g_udev_device_get_subsystem device) (Some "iio") =? 0)
  then ret false
  else if negb (g_strcmp0 (Some "accel_3d")
                  (g_udev_device_get_sysfs_attr device "name") =? 0)
  then ret false
  else ret true.

(** [iio_buffer_accel_set_polling] (lines 160-177).  Naming the source
    (line 175) changes nothing that is modelled. *)
Definition iio_buffer_accel_set_polling (state : bool) : M unit :=
  d <- deref_drv_data ;;
  if (0 <? io_source d) && state then ret tt
  else if (io_source d =? 0) && negb state then ret tt
  else
    (if negb (io_source d =? 0) then
       g_source_remove (io_source d) ;;;
       update_drv_data (set_io_source 0)
     else ret tt) ;;;
    if state then
      d <- deref_drv_data ;;
      id <- g_io_add_watch (gio_r d) ;;
      update_drv_data (set_io_source id)
    else ret tt.

(** [iio_buffer_accel_open] (lines 179-239).  [g_error] ends the
    process, so the clean-up written after it is never reached.  The
    channel is an object changed in place by [g_io_channel_set_flags];
    here the changed channel is stored back.  The buffer size of line 229
    is not modelled. *)
Definition iio_buffer_accel_open (device : GUdevDevice)
    (callback_func : ReadingsUpdateFunc) (user_data : gpointer) : M bool :=
  alloc RStruct ;;;
  modify (set_drv_data (Some DrvData_zero)) ;;;
  trigger_name <- get_trigger_name device ;;
  match trigger_name with
  | None => g_clear_drv_data ;;; ret false
  | Some name =>
      let bd := buffer_drv_data_new device name in
      (match bd with Some _ => alloc RBufData | None => ret tt end) ;;;
      update_drv_data (set_buffer_data bd) ;;;
      release RString ;;;
      match bd with
      | None => g_clear_drv_data ;;; ret false
      | Some _ =>
          alloc RDevRef ;;;
          update_drv_data (set_dev (Some device)) ;;;
          update_drv_data (set_dev_path (g_udev_device_get_device_file device)) ;;;
          update_drv_data (set_callback callback_func user_data) ;;;
          d <- deref_drv_data ;;
          r <- g_io_channel_new_file (dev_path d) ;;
          update_drv_data (set_gio_r (fst r)) ;;;
          if snd r then abort (* g_error, line 212 *)
          else
            d <- deref_drv_data ;;
            gerr <- g_io_channel_set_encoding (gio_r d) ;;
            if gerr then abort (* g_error, line 221 *)
            else
              f <- g_io_channel_set_flags (gio_r d) ;;
              let '(status, channel, gerr) := f in
              update_drv_data (set_gio_r channel) ;;;
              (if GIOStatus_eqb status G_IO_STATUS_ERROR then
                 (* g_warning reads gerr->message *)
                 if gerr then ret tt else abort
               else ret tt) ;;;
              ret true
      end
  end.

(** [iio_buffer_accel_close] (lines 241-249). *)
Definition iio_buffer_accel_close : M unit :=
  iio_buffer_accel_set_polling false ;;;
  d <- deref_drv_data ;;
  g_free RBufData (buffer_data d) ;;;
  update_drv_data (set_buffer_data None) ;;;
  g_free RChannel (gio_r d) ;;;
  g_free RDevRef (dev d) ;;;
  update_drv_data (set_dev None) ;;;
  g_clear_drv_data.

(** *** The host's main loop *)

(** One "stream is readable" notification: the main context calls the
    watch callback of the session's source, if it is attached. *)
Definition dispatch_readable : M unit :=
  w <- get ;;
  match drv_data w with
  | Some d =>
      if bool_decide (io_source d ∈ sources w)
      then read_orientation G_IO_IN ;;; ret tt
      else ret tt
  | None => ret tt
  end.

(** [n] invocations of the Scan Reader in a row. *)
Fixpoint invocations (n : nat) : M unit :=
  match n with
  | O => ret tt
  | S n' => read_orientation G_IO_IN ;;; invocations n'
  end.

(** The bytes to come from the device are replaced by [s]. *)
Definition feed (s : list ChanEvent) : M unit := modify (set_dev_stream s).

End Driver.

Arguments Done {U A} a w.
Arguments Abort {U A}.
Arguments Diverge {U A}.

(** ** A buffer layout to run the driver on

    An instance of the interface in the manner of the IIO buffer
    helpers: a session is a scan size and a table of channels, each a
    name, the offset of its 16-bit little-endian sample in the scan and
    its scale; a channel that is not in the table leaves the value and
    scale cells alone and clears the presence flag. *)

Record ChannelInfo := {
  ci_name : string;
  ci_offset : nat;
  ci_scale : gdouble;
}.

Record ScanLayout := {
  sl_scan_size : Z;
  sl_channels : list ChannelInfo;
}.

(** The double nearest to 0.1. *)
Definition scale_0_1 : gdouble := 0x1.999999999999ap-4%float.

Definition Z_of_byte (b : byte) : Z := Z.of_N (Byte.to_N b).

(** The signed 16-bit little-endian sample at [off]. *)
Definition sample_s16le (bs : list byte) (off : nat) : Z :=
  let lo := Z_of_byte (nth off bs x00) in
  let hi := Z_of_byte (nth (S off) bs x00) in
  let u := lo + 256 * hi in
  if u <? 32768 then u else u - 65536.

Definition layout_process_scan_1 (d : option (list byte))
    (bd : option ScanLayout) (ch_name : string) (cells : Z * gdouble * bool)
  : Z * gdouble * bool :=
  match d, bd with
  | Some bs, Some l =>
      match find (fun c => String.eqb (ci_name c) ch_name) (sl_channels l) with
      | Some c => (sample_s16le bs (ci_offset c), ci_scale c, true)
      | None => (fst (fst cells), snd (fst cells), false)
      end
  | _, _ => cells
  end.

Definition accel_layout : ScanLayout :=
  Build_ScanLayout 6
    [ Build_ChannelInfo "in_accel_x" 0 scale_0_1;
      Build_ChannelInfo "in_accel_y" 2 scale_0_1;
      Build_ChannelInfo "in_accel_z" 4 scale_0_1 ].

(** A session is refused for a device without a device number. *)
Definition layout_buffer_drv_data_new (device : GUdevDevice) (trigger : string)
  : option ScanLayout :=
  match udev_number device with
  | Some _ => Some accel_layout
  | None => None
  end.

Definition layout_utils : IIOBufferUtils :=
  Build_IIOBufferUtils ScanLayout sl_scan_size layout_buffer_drv_data_new
    layout_process_scan_1.

(** The accelerometer iio:device3, its trigger, and a udev database
    holding both. *)
Definition accel_dev : GUdevDevice :=
  Build_GUdevDevice (Some "iio") {[ "name" := "accel_3d" ]} (Some "3")
    "/sys/bus/iio/devices/iio:device3" (Some "/dev/iio:device3").

Definition accel_trigger : GUdevDevice :=
  Build_GUdevDevice (Some "iio") {[ "name" := "accel_3d-dev3" ]} (Some "3")
    "/sys/bus/iio/devices/trigger3" None.

Definition good_env : Env :=
  Build_Env [accel_dev; accel_trigger] false false false 0 0 0 0%float false x00.

(** The same platform with the trigger missing, and with a channel that
    refuses the encoding. *)
Definition no_trigger_env : Env :=
  Build_Env [accel_dev] false false false 0 0 0 0%float false x00.
Definition bad_encoding_env : Env :=
  Build_Env [accel_dev; accel_trigger] false true false 0 0 0 0%float false x00.

(** A device the buffer helpers refuse. *)
Definition numberless_dev : GUdevDevice :=
  Build_GUdevDevice (Some "iio") {[ "name" := "accel_3d" ]} None
    "/sys/bus/iio/devices/iio:device" (Some "/dev/iio:device").
Definition numberless_trigger : GUdevDevice :=
  Build_GUdevDevice (Some "iio") {[ "name" := "accel_3d-dev(null)" ]} None
    "/sys/bus/iio/devices/trigger" None.
Definition numberless_env : Env :=
  Build_Env [numberless_dev; numberless_trigger] false false false
    0 0 0 0%float false x00.

(** The scan (10, 20, 30), whole and in two halves. *)
Definition scan_10_20_30 : list byte := [x0a; x00; x14; x00; x1e; x00].
Definition scan_first_half : list byte := [x0a; x00; x14].
Definition scan_second_half : list byte := [x00; x1e; x00].

(** Open on [accel_dev] at program start, then enable polling. *)
Definition opened_world (stream : list ChanEvent) : Outcome (U := layout_utils) unit :=
  bind (iio_buffer_accel_open accel_dev 7%nat 9%nat)
    (fun _ => iio_buffer_accel_set_polling true)
    (initial_world (U := layout_utils) good_env stream).

(** [accel_layout] as a buffer session of [layout_utils]. *)
Definition accel_buffer : @BufferDrvData layout_utils := accel_layout.

(** The session that [opened_world] leaves in [drv_data] (source id 1
    is the first the main context hands out). *)
Definition accel_session : DrvData (U := layout_utils) :=
  Build_DrvData (U := layout_utils) (Some (Build_GIOChannel "/dev/iio:device3" true)) 1 7%nat 9%nat
    (Some accel_dev) (Some "/dev/iio:device3") 0 (Some accel_layout).

(** The world of that session, with [stream] to come from the device. *)
Definition session_world (stream : list ChanEvent) : World (U := layout_utils) :=
  Build_World (U := layout_utils) good_env (Some accel_session) 0 {[ 1 ]} 2 stream
    (Build_Heap 1 0 0 0 1 1 1) [] [].

(** The buffer of a read that brought the scan (10, 20, 30). *)
Definition scan_10_20_30_data : IIOSensorData :=
  Build_IIOSensorData 6 (Some scan_10_20_30).

(** The callback call that delivers the reading (-1.0, -2.0, 3.0) to
    the host of [accel_session]. *)
Definition reading_10_20_30 : CallbackCall :=
  Build_CallbackCall 7%nat (Build_AccelReadings (-1)%float (-2)%float 3%float)
    9%nat.

(** A layout whose three channels have three different scales, and a
    layout without an x channel. *)
Definition mixed_scale_layout : ScanLayout :=
  Build_ScanLayout 6
    [ Build_ChannelInfo "in_accel_x" 0 1%float;
      Build_ChannelInfo "in_accel_y" 2 2%float;
      Build_ChannelInfo "in_accel_z" 4 0.5%float ].

Definition no_x_layout : ScanLayout :=
  Build_ScanLayout 4
    [ Build_ChannelInfo "in_accel_y" 0 scale_0_1;
      Build_ChannelInfo "in_accel_z" 2 scale_0_1 ].

Definition session_with (l : ScanLayout) : DrvData (U := layout_utils) :=
  Build_DrvData (U := layout_utils) (Some (Build_GIOChannel "/dev/iio:device3" true)) 1 7%nat 9%nat
    (Some accel_dev) (Some "/dev/iio:device3") 0 (Some l).

(** The world of [session_world] on a platform where the x cell of
    [process_scan] starts out holding 40. *)
Definition junk_env : Env :=
  Build_Env [accel_dev; accel_trigger] false false false 40 0 0 0%float false x00.

Definition junk_world : World (U := layout_utils) :=
  Build_World (U := layout_utils) junk_env (Some (session_with no_x_layout)) 0
    {[ 1 ]} 2 [] (Build_Heap 1 0 0 0 1 1 1) [] [].

(** A session whose scan is empty. *)
Definition empty_scan_world : World (U := layout_utils) :=
  Build_World (U := layout_utils) good_env
    (Some (session_with (Build_ScanLayout 0 []))) 0 {[ 1 ]} 2
    [Chunk scan_10_20_30; WouldBlock] (Build_Heap 1 0 0 0 1 1 1) [] [].

(** The platform of [good_env] with a device file that cannot be
    opened. *)
Definition bad_open_env : Env :=
  Build_Env [accel_dev; accel_trigger] true false false 0 0 0 0%float false x00.

(** The world right after [open] on [accel_dev] at program start: the
    session is there and is not polling. *)
Definition idle_session : DrvData (U := layout_utils) :=
  Build_DrvData (U := layout_utils)
    (Some (Build_GIOChannel "/dev/iio:device3" true)) 0 7%nat 9%nat
    (Some accel_dev) (Some "/dev/iio:device3") 0 (Some accel_layout).

Definition opened_only_world : World (U := layout_utils) :=
  Build_World (U := layout_utils) good_env (Some idle_session)
    0 ∅ 1 [] (Build_Heap 1 0 0 0 1 1 1) [] [].

(** The empty scan as a buffer session of [layout_utils]. *)
Definition empty_buffer : @BufferDrvData layout_utils := Build_ScanLayout 0 [].

(** The world of [session_world] with half a record already counted. *)
Definition half_read_world (stream : list ChanEvent)
  : World (U := layout_utils) :=
  Build_World (U := layout_utils) good_env (Some accel_session) 3 {[ 1 ]} 2
    stream (Build_Heap 1 0 0 0 1 1 1) [] [].

(** Another scan, (1, 2, 3). *)
Definition scan_1_2_3 : list byte := [x01; x00; x02; x00; x03; x00].

(** *** Scenarios *)

(** Open on [accel_dev] and enable polling. *)
Definition start_session : M (U := layout_utils) unit :=
  bind (iio_buffer_accel_open accel_dev 7%nat 9%nat)
    (fun _ => iio_buffer_accel_set_polling true).

(** Close the session, then open afresh on the same device. *)
Definition restart_session : M (U := layout_utils) unit :=
  bind iio_buffer_accel_close (fun _ => start_session).

(** The device produces [s] and the main loop notifies the driver
    once. *)
Definition notify (s : list ChanEvent) : M (U := layout_utils) unit :=
  bind (feed s) (fun _ => dispatch_readable).

(** A first session that receives one whole scan. *)
Definition first_session_run : Outcome (U := layout_utils) unit :=
  bind start_session
    (fun _ => notify [Chunk scan_10_20_30; WouldBlock])
    (initial_world good_env []).

(** A session that receives half a scan and is closed; then a second
    session on the same device that receives one whole scan. *)
Definition second_session_run : Outcome (U := layout_utils) unit :=
  bind start_session
    (fun _ => bind (notify [Chunk scan_first_half; WouldBlock])
       (fun _ => bind restart_session
          (fun _ => notify [Chunk scan_10_20_30; WouldBlock])))
    (initial_world good_env []).

(** What a run delivered to the host, and what it asked of the
    stream. *)
Definition deliveries `{U : IIOBufferUtils} {A} (o : Outcome A)
  : option (list CallbackCall) :=
  match o with
  | Done _ w => Some (delivered w)
  | _ => None
  end.

Definition read_calls `{U : IIOBufferUtils} {A} (o : Outcome A)
  : option (list ReadCall) :=
  match o with
  | Done _ w => Some (reads w)
  | _ => None
  end.

(** The reassembly counter and the unread stream after a run. *)
Definition counter_after `{U : IIOBufferUtils} {A} (o : Outcome A)
  : option Z :=
  match o with
  | Done _ w => Some (read_size_ctr w)
  | _ => None
  end.

Definition stream_after `{U : IIOBufferUtils} {A} (o : Outcome A)
  : option (list ChanEvent) :=
  match o with
  | Done _ w => Some (dev_stream w)
  | _ => None
  end.

(** The registered sources after a run. *)
Definition sources_after `{U : IIOBufferUtils} {A} (o : Outcome A)
  : option (list Z) :=
  match o with
  | Done _ w => Some (elements (sources w))
  | _ => None
  end.

(** A scan split over two notifications. *)
Definition split_scan_stream : list ChanEvent :=
  [Chunk scan_first_half; WouldBlock; Chunk scan_second_half; WouldBlock].

(** A scan that arrives within one notification, in two reads: the
    first read finds 3 bytes, the second the other 3, the third would
    block. *)
Definition two_read_scan_stream : list ChanEvent :=
  [Chunk scan_first_half; Chunk scan_second_half; WouldBlock].

(** *** A platform with two accelerometers

    iio:device3 as before, and iio:device4 with its trigger, whose y and
    z channels only are enabled: its scan is 4 bytes long. *)

Definition accel_dev4 : GUdevDevice :=
  Build_GUdevDevice (Some "iio") {[ "name" := "accel_3d" ]} (Some "4")
    "/sys/bus/iio/devices/iio:device4" (Some "/dev/iio:device4").

Definition accel_trigger4 : GUdevDevice :=
  Build_GUdevDevice (Some "iio") {[ "name" := "accel_3d-dev4" ]} (Some "4")
    "/sys/bus/iio/devices/trigger4" None.

Definition two_sensor_env : Env :=
  Build_Env [accel_dev; accel_trigger; accel_dev4; accel_trigger4]
    false false false 0 0 0 0%float false x00.

Definition two_sensor_buffer_drv_data_new (device : GUdevDevice)
    (trigger : string) : option ScanLayout :=
  match udev_number device with
  | Some n => if String.eqb n "4" then Some no_x_layout else Some accel_layout
  | None => None
  end.

Definition two_sensor_utils : IIOBufferUtils :=
  Build_IIOBufferUtils ScanLayout sl_scan_size two_sensor_buffer_drv_data_new
    layout_process_scan_1.

(** Five of the six bytes of the scan (10, 20, 30). *)
Definition scan_five_bytes : list byte := [x0a; x00; x14; x00; x1e].

(** From program start: open on iio:device3, enable polling, and one
    notification that finds five bytes. *)
Definition first_sensor_session : M (U := two_sensor_utils) unit :=
  bind (iio_buffer_accel_open accel_dev 7%nat 9%nat)
    (fun _ => bind (iio_buffer_accel_set_polling true)
       (fun _ => bind (feed [Chunk scan_five_bytes; WouldBlock])
          (fun _ => dispatch_readable))).

(** The host changes sensors: close, open on iio:device4, enable
    polling. *)
Definition switch_sensor : M (U := two_sensor_utils) unit :=
  bind iio_buffer_accel_close
    (fun _ => bind (iio_buffer_accel_open accel_dev4 7%nat 9%nat)
       (fun _ => iio_buffer_accel_set_polling true)).

Definition first_sensor_run : Outcome (U := two_sensor_utils) unit :=
  first_sensor_session (initial_world two_sensor_env []).

Definition switched_sensor_run : Outcome (U := two_sensor_utils) unit :=
  bind first_sensor_session (fun _ => switch_sensor)
    (initial_world two_sensor_env []).

(** The second session is notified while nothing is there to read. *)
Definition switched_sensor_notified : Outcome (U := two_sensor_utils) unit :=
  bind first_sensor_session
    (fun _ => bind switch_sensor
       (fun _ => bind (feed [WouldBlock]) (fun _ => dispatch_readable)))
    (initial_world two_sensor_env []).

(** ** Specification-side definitions *)

Section Reference.

Context {U : IIOBufferUtils}.

(** The readings [process_scan] computes from a scan buffer, as the
    decode step is described: the three extractions in order, x and y
    negated, all three multiplied by the scale left in the shared cell. *)
Definition decode (e : Env) (d : option (list byte)) (bd : option BufferDrvData)
  : AccelReadings :=
  let rx := process_scan_1 d bd "in_accel_x"
              (uninit_accel_x e, uninit_scale e, uninit_present e) in
  let ry := process_scan_1 d bd "in_accel_y"
              (uninit_accel_y e, snd (fst rx), uninit_present e) in
  let rz := process_scan_1 d bd "in_accel_z"
              (uninit_accel_z e, snd (fst ry), uninit_present e) in
  let scale := snd (fst rz) in
  Build_AccelReadings
    (int_times_double (int_neg (fst (fst rx))) scale)
    (int_times_double (int_neg (fst (fst ry))) scale)
    (int_times_double (fst (fst rz)) scale).

(** The callback call that delivers the decoded buffer [d] for the
    session [or_data]. *)
Definition delivery (e : Env) (or_data : DrvData) (d : option (list byte))
  : CallbackCall :=
  Build_CallbackCall (callback_func or_data)
    (decode e d (buffer_data or_data)) (user_data or_data).

(** A read that handed over a whole record: status NORMAL and at least
    [buf_size] bytes (the test of line 91). *)
Definition whole_record (buf_size : Z) (r : ReadCall) : bool :=
  GIOStatus_eqb (rc_status r) G_IO_STATUS_NORMAL
  && (buf_size <=? Z.of_nat (length (rc_bytes r))).

(** The bytes of the last whole-record read among [rs], or [init] when
    there is none. *)
Definition last_whole_record (buf_size : Z) (init : option (list byte))
    (rs : list ReadCall) : option (list byte) :=
  fold_left
    (fun acc r => if whole_record buf_size r then Some (rc_bytes r) else acc)
    rs init.

(** The last read of [rs] that handed over a whole record. *)
Definition latest_whole_record (buf_size : Z) (rs : list ReadCall)
  : option ReadCall :=
  last (filter (fun r => whole_record buf_size r = true) rs).

(** The callback calls of one invocation whose reads were [rs]: one,
    for the latest whole record, or none. *)
Definition invocation_deliveries (e : Env) (or_data : DrvData) (buf_size : Z)
    (rs : list ReadCall) : list CallbackCall :=
  match latest_whole_record buf_size rs with
  | Some r => [delivery e or_data (Some (rc_bytes r))]
  | None => []
  end.

(** The status that ends the read loop on a stream: the first event
    that is not a chunk, AGAIN when the stream runs dry. *)
Fixpoint terminal_status (s : list ChanEvent) : GIOStatus :=
  match s with
  | [] => G_IO_STATUS_AGAIN
  | Chunk _ :: r => terminal_status r
  | WouldBlock :: _ => G_IO_STATUS_AGAIN
  | Eof :: _ => G_IO_STATUS_EOF
  | IoError :: _ => G_IO_STATUS_ERROR
  end.

(** The record size of the open session, as [read_orientation] takes it
    (line 77). *)
Definition session_buf_size (w : World) : option Z :=
  match drv_data w with
  | Some d =>
      match buffer_data d with
      | Some b => Some (gsize_wrap (scan_size b))
      | None => None
      end
  | None => None
  end.

(** The invariant of the partial-record state. *)
Definition partial_record_inv (w : World) : Prop :=
  exists S, session_buf_size w = Some S /\ 0 <= read_size_ctr w < S.

(** The record size of the session a run leaves open. *)
Definition record_size_after {A} (o : Outcome A) : option Z :=
  match o with
  | Done _ w => session_buf_size w
  | _ => None
  end.

(** The polling state of a session against the sources [base] that
    other parts of the host attached: the session has a channel, the
    main context's counter is ahead of every source, and either nothing
    is registered ([io_source] is 0) or exactly the source [io_source]. *)
Definition polling_inv (base : gset Z) (w : World) : Prop :=
  exists d,
    drv_data w = Some d /\ is_Some (gio_r d) /\
    0 < next_source_id w /\
    (forall id, id ∈ sources w -> id < next_source_id w) /\
    ((io_source d = 0 /\ sources w = base) \/
     (0 < io_source d /\ (io_source d ∉ base) /\
      sources w = base ∪ {[io_source d]})).

(** The registrations of the session. *)
Definition registrations (base : gset Z) (w : World) : gset Z :=
  sources w ∖ base.

(** A sequence of [iio_buffer_accel_set_polling] calls. *)
Fixpoint set_polling_seq (bs : list bool) : M unit :=
  match bs with
  | [] => ret tt
  | b :: bs' => bind (iio_buffer_accel_set_polling b) (fun _ => set_polling_seq bs')
  end.

(** What the read loop leaves alone. *)
Definition loop_frame (w w' : World) : Prop :=
  env w' = env w /\ drv_data w' = drv_data w /\ sources w' = sources w /\
  next_source_id w' = next_source_id w /\ delivered w' = delivered w.

(** Whether the udev database holds the trigger of [device] (the loop
    of lines 125-133). *)
Definition trigger_name_of (device : GUdevDevice) : string :=
  "accel_3d-dev" +:+ printf_s (g_udev_device_get_number device).

Definition has_trigger (e : Env) (device : GUdevDevice) : bool :=
  existsb
    (fun dev =>
       g_strcmp0 (Some (trigger_name_of device))
         (g_udev_device_get_sysfs_attr dev "name") =? 0)
    (udev_iio_devices e).

(** The session a successful [open] builds: not polling, the channel
    opened on [file] and non-blocking or not. *)
Definition opened_session (device : GUdevDevice) (cb : ReadingsUpdateFunc)
    (ud : gpointer) (b : BufferDrvData) (file : string) (nonblock : bool)
  : DrvData :=
  Build_DrvData (Some (Build_GIOChannel file nonblock)) 0 cb ud (Some device)
    (Some file) 0 (Some b).

(** What [open] has allocated when it returns TRUE. *)
Definition session_heap (h : Heap) : Heap :=
  heap_add RStruct 1
    (heap_add RBufData 1 (heap_add RChannel 1 (heap_add RDevRef 1 h))).

(** The number of blocks a buffer pointer holds: 0 for NULL. *)
Definition live (b : IIOSensorData) : Z :=
  match data b with
  | Some _ => 1
  | None => 0
  end.

(** The number of blocks behind a pointer: 0 for NULL. *)
Definition held {A} (p : option A) : Z :=
  match p with
  | Some _ => 1
  | None => 0
  end.

(** The heap once [close] has released what the session [d] holds. *)
Definition released (d : DrvData) (h : Heap) : Heap :=
  heap_add RStruct (-1)
    (heap_add RDevRef (- held (dev d))
       (heap_add RChannel (- held (gio_r d))
          (heap_add RBufData (- held (buffer_data d)) h))).

(** What [read_orientation] does once the read loop has ended (lines
    99-108), on the loop's final status and its two buffers. *)
Definition finish_read (or_data : DrvData)
    (r : GIOStatus * IIOSensorData * IIOSensorData) : M bool :=
  bind (g_assert (GIOStatus_eqb (fst (fst r)) G_IO_STATUS_AGAIN))
    (fun _ =>
       bind (match data (snd r) with
             | Some _ =>
                 bind (process_scan (snd r) or_data)
                   (fun _ => g_free RScratch (data (snd r)))
             | None => ret tt
             end)
         (fun _ =>
            bind (g_free RScratch (data (snd (fst r)))) (fun _ => ret true))).

(** The callback call for the captured buffer [p], if there is one. *)
Definition delivery_of (e : Env) (or_data : DrvData) (p : option (list byte))
  : list CallbackCall :=
  match p with
  | Some rec => [delivery e or_data (Some rec)]
  | None => []
  end.

(** A stream of bursts: the chunks of each burst, then "would block". *)
Definition burst_stream (bursts : list (list (list byte))) : list ChanEvent :=
  flat_map (fun recs => map Chunk recs ++ [WouldBlock]) bursts.

(** The callback calls for a stream of bursts of whole records: one per
    non-empty burst, for its last record. *)
Definition burst_deliveries (e : Env) (or_data : DrvData) (b : BufferDrvData)
    (bursts : list (list (list byte))) : list CallbackCall :=
  flat_map
    (fun recs =>
       match last recs with
       | Some r =>
           [Build_CallbackCall (callback_func or_data)
              (decode e (Some r) (Some b)) (user_data or_data)]
       | None => []
       end)
    bursts.

End Reference.

(** ** Properties *)

Section Properties.

Context {U : IIOBufferUtils}.

Arguments gsize_wrap : simpl never.
Arguments gsize_modulus : simpl never.

(** Call-by-value normalisation of world updates, and of a whole run
    of [open] on a world given by its fields. *)
Ltac world_norm :=
  cbv beta iota zeta delta
    [set_heap set_drv_data set_read_size_ctr set_sources set_next_source_id
     set_dev_stream set_delivered set_reads heap_add
     h_structs h_strings h_scratch h_udev h_bufdata h_channels h_devrefs
     env drv_data read_size_ctr sources next_source_id dev_stream heap
     delivered reads
     set_io_source set_buffer_data set_dev set_dev_path set_callback set_gio_r
     gio_r io_source callback_func user_data dev dev_path device_id buffer_data
     DrvData_zero fst snd].

Ltac world_norm_in H := revert H; world_norm; intros H.

Ltac run_norm :=
  cbv beta iota zeta delta
    [iio_buffer_accel_open iio_buffer_accel_close
     iio_buffer_accel_set_polling g_source_remove g_io_add_watch
     get_trigger_name g_clear_drv_data g_free
     update_drv_data deref_drv_data g_io_channel_new_file
     g_io_channel_set_encoding g_io_channel_set_flags
     g_udev_device_get_device_file
     bind get alloc release modify ret abort
     set_heap set_drv_data set_read_size_ctr set_sources set_next_source_id
     set_dev_stream set_delivered set_reads heap_add
     h_structs h_strings h_scratch h_udev h_bufdata h_channels h_devrefs
     env drv_data read_size_ctr sources next_source_id dev_stream heap
     delivered reads
     set_io_source set_buffer_data set_dev set_dev_path set_callback set_gio_r
     gio_r io_source callback_func user_data dev dev_path device_id buffer_data
     DrvData_zero fst snd].


Lemma strcmp_0 s t : strcmp s t = 0 <-> s = t.
Proof.
  unfold strcmp. split.
  - destruct (String.compare s t) eqn:E; intros H; try discriminate H.
    by apply String.compare_eq_iff.
  - intros <-. destruct (String.compare s s) eqn:E; try reflexivity.
    + pose proof (String.compare_antisym s s) as A.
      rewrite E in A. discriminate A.
    + pose proof (String.compare_antisym s s) as A.
      rewrite E in A. discriminate A.
Qed.

Lemma g_strcmp0_0 a b : g_strcmp0 a b = 0 <-> a = b.
Proof.
  destruct a as [s|], b as [t|]; simpl.
  - rewrite strcmp_0. split; congruence.
  - split; discriminate.
  - split; discriminate.
  - split; reflexivity.
Qed.

Lemma g_strcmp0_eqb a b : (g_strcmp0 a b =? 0) = bool_decide (a = b).
Proof.
  destruct (Z.eqb_spec (g_strcmp0 a b) 0) as [H|H].
  - apply g_strcmp0_0 in H. symmetry. by apply bool_decide_eq_true.
  - symmetry. apply bool_decide_eq_false. intros E. apply H. by apply g_strcmp0_0.
Qed.

(** C7: [iio_buffer_accel_discover] returns TRUE exactly when the
    subsystem is "iio" and the "name" attribute is "accel_3d"; for every
    other descriptor, a missing subsystem or attribute included, it
    returns FALSE (it never aborts), and it leaves the world as it found
    it. *)
Theorem discover_iff_iio_accel_3d (device : GUdevDevice) (w : World) :
  iio_buffer_accel_discover device w =
  Done (bool_decide (udev_subsystem device = Some "iio" /\
                     udev_sysfs_attrs device !! "name" = Some "accel_3d")) w.
Proof.
  unfold iio_buffer_accel_discover, g_udev_device_get_subsystem,
    g_udev_device_get_sysfs_attr.
  rewrite !g_strcmp0_eqb.
  destruct (decide (udev_subsystem device = Some "iio")) as [Hs|Hs].
  - rewrite (bool_decide_eq_true_2 _ Hs). simpl.
    destruct (decide (Some "accel_3d" = udev_sysfs_attrs device !! "name")) as [Hn|Hn].
    + rewrite (bool_decide_eq_true_2 _ Hn). simpl.
      rewrite bool_decide_eq_true_2; [reflexivity | split; congruence].
    + rewrite (bool_decide_eq_false_2 _ Hn). simpl.
      rewrite bool_decide_eq_false_2; [reflexivity | intros [_ E]; congruence].
  - rewrite (bool_decide_eq_false_2 _ Hs). simpl.
    rewrite bool_decide_eq_false_2; [reflexivity | intros [E _]; congruence].
Qed.

Lemma process_scan_delivers (d : IIOSensorData) (or_data : DrvData) (w : World) :
  process_scan d or_data w =
  Done 1 (set_delivered (delivered w ++ [delivery (env w) or_data (data d)]) w).
Proof.
  unfold process_scan, delivery, decode, bind, get, modify, ret.
  destruct (process_scan_1 (data d) (buffer_data or_data) "in_accel_x" _)
    as [[ax sx] px]. simpl.
  destruct (process_scan_1 (data d) (buffer_data or_data) "in_accel_y" _)
    as [[ay sy] py]. simpl.
  destruct (process_scan_1 (data d) (buffer_data or_data) "in_accel_z" _)
    as [[az sz] pz]. simpl.
  reflexivity.
Qed.

(** C5: a record whose three channels decode to 10, 20 and 30 with
    scale 0.1 is delivered as the Reading (-1.0, -2.0, 3.0): x and y
    change sign, z does not. *)
Theorem decode_10_20_30 (d : IIOSensorData) (or_data : DrvData) (w : World)
  (Hx : forall c, process_scan_1 (data d) (buffer_data or_data) "in_accel_x" c
                  = (10, scale_0_1, true))
  (Hy : forall c, process_scan_1 (data d) (buffer_data or_data) "in_accel_y" c
                  = (20, scale_0_1, true))
  (Hz : forall c, process_scan_1 (data d) (buffer_data or_data) "in_accel_z" c
                  = (30, scale_0_1, true)) :
  process_scan d or_data w =
  Done 1
    (set_delivered
       (delivered w ++
        [Build_CallbackCall (callback_func or_data)
           (Build_AccelReadings (-1)%float (-2)%float 3%float)
           (user_data or_data)])
       w).
Proof.
  rewrite process_scan_delivers. unfold delivery, decode.
  rewrite Hx, Hy, Hz. reflexivity.
Qed.

(** C10: whatever the three extractions report, [process_scan] returns
    and calls the callback once, and every axis is multiplied by the
    scale that the last extraction (in_accel_z) left in the shared cell;
    the scales left by the x and y extractions only reach the result as
    the previous contents of that cell. *)
Theorem process_scan_uses_last_scale (d : IIOSensorData) (or_data : DrvData)
    (w : World) :
  let e := env w in
  let rx := process_scan_1 (data d) (buffer_data or_data) "in_accel_x"
              (uninit_accel_x e, uninit_scale e, uninit_present e) in
  let ry := process_scan_1 (data d) (buffer_data or_data) "in_accel_y"
              (uninit_accel_y e, snd (fst rx), uninit_present e) in
  let rz := process_scan_1 (data d) (buffer_data or_data) "in_accel_z"
              (uninit_accel_z e, snd (fst ry), uninit_present e) in
  let scale_z := snd (fst rz) in
  process_scan d or_data w =
  Done 1
    (set_delivered
       (delivered w ++
        [Build_CallbackCall (callback_func or_data)
           (Build_AccelReadings
              (PrimFloat.mul (double_of_int (int_neg (fst (fst rx)))) scale_z)
              (PrimFloat.mul (double_of_int (int_neg (fst (fst ry)))) scale_z)
              (PrimFloat.mul (double_of_int (fst (fst rz))) scale_z))
           (user_data or_data)])
       w).
Proof.
  intros e rx ry rz scale_z. rewrite process_scan_delivers. reflexivity.
Qed.

(** *** Polling *)

(** The four cases of [iio_buffer_accel_set_polling]. *)
Lemma set_polling_true_enabled (w : World) (d : DrvData) :
  drv_data w = Some d -> 0 < io_source d ->
  iio_buffer_accel_set_polling true w = Done tt w.
Proof.
  intros Hd Hio. apply Z.ltb_lt in Hio.
  unfold iio_buffer_accel_set_polling, bind, deref_drv_data.
  rewrite Hd, Hio. reflexivity.
Qed.

Lemma set_polling_true_disabled (w : World) (d : DrvData) (c : GIOChannel) :
  drv_data w = Some d -> io_source d = 0 -> gio_r d = Some c ->
  iio_buffer_accel_set_polling true w =
  Done tt
    (set_drv_data (Some (set_io_source (next_source_id w) d))
       (set_next_source_id (next_source_id w + 1)
          (set_sources (sources w ∪ {[next_source_id w]}) w))).
Proof.
  intros Hd Hio Hc.
  destruct w as [e dd ctr src nxt str hp dl rd]. simpl in *. subst dd.
  destruct d as [g io cb ud dv dp di bd]. simpl in *. subst g io.
  reflexivity.
Qed.

Lemma set_polling_false_enabled (w : World) (d : DrvData) :
  drv_data w = Some d -> 0 < io_source d ->
  iio_buffer_accel_set_polling false w =
  Done tt
    (set_drv_data (Some (set_io_source 0 d))
       (set_sources (sources w ∖ {[io_source d]}) w)).
Proof.
  intros Hd Hio.
  assert (Hn : (io_source d =? 0) = false) by (apply Z.eqb_neq; lia).
  destruct w as [e dd ctr src nxt str hp dl rd]. simpl in *. subst dd.
  unfold iio_buffer_accel_set_polling, bind, deref_drv_data. simpl.
  rewrite Hn, andb_false_r. simpl. reflexivity.
Qed.

Lemma set_polling_enable (base : gset Z) (w : World) :
  polling_inv base w ->
  exists w1 id,
    iio_buffer_accel_set_polling true w = Done tt w1 /\
    polling_inv base w1 /\
    registrations base w1 = {[id]} /\
    iio_buffer_accel_set_polling true w1 = Done tt w1.
Proof.
  intros (d & Hd & [c Hc] & Hpos & Hlt & [[Hio Hsrc] | (Hio & Hnot & Hsrc)]).
  - assert (Hfresh : next_source_id w ∉ base).
    { intros Hin. rewrite <- Hsrc in Hin. apply Hlt in Hin. lia. }
    eexists _, (next_source_id w).
    split; [exact (set_polling_true_disabled w d c Hd Hio Hc) |].
    split; [| split].
    + exists (set_io_source (next_source_id w) d).
      destruct w as [e dd ctr src nxt str hp dl rd]. simpl in *.
      split; [reflexivity |]. split; [by eexists |]. split; [lia |]. split.
      * intros id Hin. apply elem_of_union in Hin as [Hin | Hin].
        -- apply Hlt in Hin. lia.
        -- apply elem_of_singleton in Hin. lia.
      * right. split; [lia |]. split; [exact Hfresh | by rewrite Hsrc].
    + unfold registrations. destruct w; simpl in *. set_solver.
    + eapply set_polling_true_enabled.
      * destruct w; reflexivity.
      * destruct w; simpl in *. lia.
  - exists w, (io_source d).
    split; [exact (set_polling_true_enabled w d Hd Hio) |].
    split; [| split].
    + exists d. split; [exact Hd |]. split; [by eexists |].
      split; [exact Hpos |]. split; [exact Hlt |]. right. auto.
    + unfold registrations. set_solver.
    + exact (set_polling_true_enabled w d Hd Hio).
Qed.

Lemma set_polling_false_noop (w : World) (d : DrvData) :
  drv_data w = Some d -> io_source d = 0 ->
  iio_buffer_accel_set_polling false w = Done tt w.
Proof.
  intros Hd Hio.
  unfold iio_buffer_accel_set_polling, bind, deref_drv_data.
  rewrite Hd, Hio. reflexivity.
Qed.

Lemma set_polling_disable (base : gset Z) (w : World) :
  polling_inv base w ->
  exists w1,
    iio_buffer_accel_set_polling false w = Done tt w1 /\
    polling_inv base w1 /\
    registrations base w1 = ∅ /\
    iio_buffer_accel_set_polling false w1 = Done tt w1.
Proof.
  intros (d & Hd & [c Hc] & Hpos & Hlt & [[Hio Hsrc] | (Hio & Hnot & Hsrc)]).
  - exists w.
    split; [exact (set_polling_false_noop w d Hd Hio) |].
    split; [| split].
    + exists d. split; [exact Hd |]. split; [by eexists |].
      split; [exact Hpos |]. split; [exact Hlt |]. left. auto.
    + unfold registrations. set_solver.
    + exact (set_polling_false_noop w d Hd Hio).
  - eexists.
    split; [exact (set_polling_false_enabled w d Hd Hio) |].
    split; [| split].
    + exists (set_io_source 0 d).
      destruct w as [e dd ctr src nxt str hp dl rd]. simpl in *.
      split; [reflexivity |]. split; [by eexists |]. split; [lia |]. split.
      * intros id Hin. apply Hlt. set_solver.
      * left. split; [reflexivity | set_solver].
    + unfold registrations. destruct w; simpl in *. set_solver.
    + eapply set_polling_false_noop.
      * destruct w; reflexivity.
      * reflexivity.
Qed.

Lemma set_polling_seq_inv (base : gset Z) (bs : list bool) :
  forall w, polling_inv base w ->
  exists w', set_polling_seq bs w = Done tt w' /\ polling_inv base w'.
Proof.
  induction bs as [| b bs IH]; intros w Hinv.
  - exists w. split; [reflexivity | exact Hinv].
  - simpl. unfold bind at 1. destruct b.
    + destruct (set_polling_enable base w Hinv) as (w1 & id & Hrun & Hinv1 & _).
      rewrite Hrun. apply IH, Hinv1.
    + destruct (set_polling_disable base w Hinv) as (w1 & Hrun & Hinv1 & _).
      rewrite Hrun. apply IH, Hinv1.
Qed.

Lemma polling_inv_registrations (base : gset Z) (w : World) :
  polling_inv base w -> (size (registrations base w) <= 1)%nat.
Proof.
  intros (d & _ & _ & _ & _ & [[_ Hsrc] | (_ & Hnot & Hsrc)]);
    unfold registrations; rewrite Hsrc.
  - replace (base ∖ base) with (∅ : gset Z) by set_solver.
    rewrite size_empty. lia.
  - replace ((base ∪ {[io_source d]}) ∖ base) with ({[io_source d]} : gset Z)
      by set_solver.
    rewrite size_singleton. lia.
Qed.

(** C6: on a session in a consistent polling state, enabling returns
    with exactly one registration and enabling again changes nothing;
    disabling returns with none and disabling again changes nothing (in
    particular disabling a session that is not polling changes nothing);
    and after any sequence of calls the session has at most one
    registration. *)
Theorem set_polling_idempotent (base : gset Z) (w : World)
  (Hinv : polling_inv base w) :
  (exists w1,
     iio_buffer_accel_set_polling true w = Done tt w1 /\
     size (registrations base w1) = 1%nat /\
     iio_buffer_accel_set_polling true w1 = Done tt w1) /\
  (exists w0,
     iio_buffer_accel_set_polling false w = Done tt w0 /\
     size (registrations base w0) = 0%nat /\
     iio_buffer_accel_set_polling false w0 = Done tt w0) /\
  (registrations base w = ∅ ->
   iio_buffer_accel_set_polling false w = Done tt w) /\
  (forall bs : list bool,
     exists w', set_polling_seq bs w = Done tt w' /\
                (size (registrations base w') <= 1)%nat).
Proof.
  split; [| split; [| split]].
  - destruct (set_polling_enable base w Hinv) as (w1 & id & Hrun & _ & Hreg & Hagain).
    exists w1. rewrite Hreg, size_singleton. auto.
  - destruct (set_polling_disable base w Hinv) as (w0 & Hrun & _ & Hreg & Hagain).
    exists w0. rewrite Hreg, size_empty. auto.
  - intros Hnone.
    destruct Hinv as (d & Hd & _ & _ & _ & [[Hio _] | (_ & Hnot & Hsrc)]).
    + exact (set_polling_false_noop w d Hd Hio).
    + exfalso. unfold registrations in Hnone. rewrite Hsrc in Hnone. set_solver.
  - intros bs.
    destruct (set_polling_seq_inv base bs w Hinv) as (w' & Hrun & Hinv').
    exists w'. split; [exact Hrun | by apply polling_inv_registrations].
Qed.

(** *** The read loop *)

Lemma gsize_wrap_small (z : Z) : 0 <= z < gsize_modulus -> gsize_wrap z = z.
Proof. intros H. unfold gsize_wrap. by apply Z.mod_small. Qed.

Lemma gsize_wrap_range (z : Z) : 0 <= gsize_wrap z < gsize_modulus.
Proof. unfold gsize_wrap. apply Z.mod_pos_bound. reflexivity. Qed.

(** What one read with a positive count does to the stream. *)
Lemma read_chars_stream (count : Z) (s : list ChanEvent) :
  0 < count ->
  let '(status, bs, rest) := g_io_channel_read_chars count s in
  (length bs <= Z.to_nat count)%nat /\
  (status = G_IO_STATUS_NORMAL ->
   (stream_measure rest < stream_measure s)%nat /\
   terminal_status rest = terminal_status s) /\
  (status <> G_IO_STATUS_NORMAL ->
   bs = [] /\ status = terminal_status s).
Proof.
  intros Hc. unfold g_io_channel_read_chars.
  assert (Hz : (count =? 0) = false) by (apply Z.eqb_neq; lia).
  rewrite Hz.
  assert (Hn : (0 < Z.to_nat count)%nat) by lia.
  destruct s as [| [bs | | |] r]; simpl.
  - split; [lia |]. split; [discriminate | auto].
  - destruct (Nat.leb_spec (length bs) (Z.to_nat count)) as [Hle | Hgt].
    + split; [exact Hle |]. split; [split; [lia | reflexivity] | congruence].
    + split; [rewrite length_take; lia |].
      split; [| congruence]. intros _. simpl. rewrite length_drop.
      split; [lia | reflexivity].
  - split; [lia |]. split; [discriminate | auto].
  - split; [lia |]. split; [discriminate | auto].
  - split; [lia |]. split; [discriminate | auto].
Qed.

Lemma loop_frame_trans (w1 w2 w3 : World) :
  loop_frame w1 w2 -> loop_frame w2 w3 -> loop_frame w1 w3.
Proof.
  intros (A1 & A2 & A3 & A4 & A5) (B1 & B2 & B3 & B4 & B5).
  repeat split; congruence.
Qed.

Lemma store_whole (bs buf : list byte) :
  length bs = length buf -> store bs buf = bs.
Proof.
  intros H. unfold store. rewrite drop_ge by lia. apply app_nil_r.
Qed.

Lemma length_store (bs buf : list byte) :
  (length bs <= length buf)%nat -> length (store bs buf) = length buf.
Proof.
  intros H. unfold store. rewrite length_app, length_drop. lia.
Qed.

(** The read itself: with a buffer that can take [count] bytes it
    returns, logs the call and consumes the stream. *)
Lemma read_chars_spec (buff : IIOSensorData) (buf : list byte) (count : Z)
    (w : World) :
  data buff = Some buf -> 0 < count -> (Z.to_nat count <= length buf)%nat ->
  let '(status, bs, rest) := g_io_channel_read_chars count (dev_stream w) in
  read_chars buff count w =
  Done (status, Build_IIOSensorData (Z.of_nat (length bs)) (Some (store bs buf)))
    (set_reads (reads w ++ [Build_ReadCall count status bs])
       (set_dev_stream rest w)).
Proof.
  intros Hbuf Hc Hlen.
  pose proof (read_chars_stream count (dev_stream w) Hc) as Hs.
  unfold read_chars, bind, get, modify, ret.
  destruct (g_io_channel_read_chars count (dev_stream w)) as [[status bs] rest].
  destruct Hs as (Hle & _). rewrite Hbuf.
  destruct (Nat.leb_spec (length bs) (length buf)) as [_ | Hgt]; [| lia].
  destruct w; reflexivity.
Qed.

(** The loop body after a NORMAL read of [n] bytes that fit the rest of
    the record.  The counter keeps its old value when the sum reaches
    [buf_size], and the buffer is captured only when the read alone
    brought [buf_size] bytes. *)
Lemma loop_body_spec (buf_size : Z) (buff dat : IIOSensorData)
    (buf : list byte) (w : World) :
  0 < buf_size < gsize_modulus ->
  0 <= read_size_ctr w ->
  0 <= read_size buff ->
  read_size_ctr w + read_size buff <= buf_size ->
  data buff = Some buf ->
  exists buff' dat' w',
    loop_body buf_size buff dat w = Done (buff', dat') w' /\
    loop_frame w w' /\
    dev_stream w' = dev_stream w /\ reads w' = reads w /\
    read_size_ctr w' =
      (if buf_size <=? read_size_ctr w + read_size buff
       then read_size_ctr w
       else read_size_ctr w + read_size buff) /\
    (if buf_size <=? read_size buff
     then data buff' = Some (replicate (Z.to_nat buf_size) (uninit_byte (env w)))
          /\ data dat' = Some buf
     else buff' = buff /\ dat' = dat).
Proof.
  intros HS Hctr Hn Hsum Hbuf.
  destruct w as [e dd ctr src nxt str hp dl rd]. simpl in *.
  unfold loop_body, bind, get, modify, ret. simpl.
  rewrite (gsize_wrap_small (ctr + read_size buff)) by lia.
  destruct (Z.leb_spec buf_size (ctr + read_size buff)) as [Hge | Hlt]; simpl.
  - replace (ctr + read_size buff - read_size buff) with ctr by lia.
    rewrite (gsize_wrap_small ctr) by lia.
    destruct (Z.leb_spec buf_size (read_size buff)) as [Hcap | Hno].
    + unfold g_malloc, g_free, bind, get, alloc, release, modify, ret.
      assert (Hz : (buf_size =? 0) = false) by (apply Z.eqb_neq; lia).
      destruct (data dat); simpl; rewrite Hz; simpl;
        (do 3 eexists; split; [reflexivity |]); simpl;
        repeat split; auto.
    + do 3 eexists. split; [reflexivity |]. simpl. repeat split; auto.
  - destruct (Z.leb_spec buf_size (read_size buff)) as [Hcap | Hno]; [lia |].
    do 3 eexists. split; [reflexivity |]. simpl. repeat split; auto.
Qed.

Lemma read_loop_unfold (fuel : nat) (buf_size : Z) (buff dat : IIOSensorData)
    (w : World) :
  read_loop (S fuel) buf_size buff dat w =
  match read_chars buff (gsize_wrap (buf_size - read_size_ctr w)) w with
  | Done (status, buff1) w1 =>
      if GIOStatus_eqb status G_IO_STATUS_NORMAL then
        match loop_body buf_size buff1 dat w1 with
        | Done bd w2 => read_loop fuel buf_size (fst bd) (snd bd) w2
        | Abort => Abort
        | Diverge => Diverge
        end
      else Done (status, buff1, dat) w1
  | Abort => Abort
  | Diverge => Diverge
  end.
Proof.
  simpl. unfold bind, get.
  destruct (read_chars buff (gsize_wrap (buf_size - read_size_ctr w)) w)
    as [[status buff1] w1 | |]; try reflexivity.
  destruct (GIOStatus_eqb status G_IO_STATUS_NORMAL); reflexivity.
Qed.

Lemma last_whole_record_cons (buf_size : Z) (init : option (list byte))
    (r : ReadCall) (rs : list ReadCall) :
  last_whole_record buf_size init (r :: rs) =
  last_whole_record buf_size
    (if whole_record buf_size r then Some (rc_bytes r) else init) rs.
Proof. reflexivity. Qed.

(** The loop, from a state inside the invariant and with a scratch
    buffer of [buf_size] bytes: it ends (the fuel suffices) with the
    terminal status of the stream, the counter is still below
    [buf_size], and the captured buffer holds the bytes of the last read
    that brought a whole record. *)
Lemma read_loop_spec (buf_size : Z) (Hsize : 0 < buf_size < gsize_modulus)
    (fuel : nat) :
  forall (buff dat : IIOSensorData) (buf : list byte) (w : World),
    0 <= read_size_ctr w < buf_size ->
    data buff = Some buf -> length buf = Z.to_nat buf_size ->
    (stream_measure (dev_stream w) < fuel)%nat ->
    exists buff' dat' w' new buf',
      read_loop fuel buf_size buff dat w =
        Done (terminal_status (dev_stream w), buff', dat') w' /\
      loop_frame w w' /\
      read_size_ctr w <= read_size_ctr w' < buf_size /\
      data buff' = Some buf' /\
      reads w' = reads w ++ new /\
      data dat' = last_whole_record buf_size (data dat) new /\
      Forall (fun r => Z.of_nat (length (rc_bytes r))
                       <= buf_size - read_size_ctr w) new.
Proof.
  induction fuel as [| fuel IH]; intros buff dat buf w Hctr Hbuf Hlen Hfuel;
    [lia |].
  rewrite read_loop_unfold.
  rewrite (gsize_wrap_small (buf_size - read_size_ctr w)) by lia.
  set (count := buf_size - read_size_ctr w).
  assert (Hcount : 0 < count) by (unfold count; lia).
  assert (Hfit : (Z.to_nat count <= length buf)%nat) by (unfold count; lia).
  pose proof (read_chars_spec buff buf count w Hbuf Hcount Hfit) as Hread.
  pose proof (read_chars_stream count (dev_stream w) Hcount) as Hstream.
  destruct (g_io_channel_read_chars count (dev_stream w))
    as [[status bs] rest] eqn:Hch.
  rewrite Hread. clear Hread.
  destruct Hstream as (Hle & Hnormal & Hother).
  set (w1 := set_reads (reads w ++ [Build_ReadCall count status bs])
               (set_dev_stream rest w)).
  set (buff1 := Build_IIOSensorData (Z.of_nat (length bs)) (Some (store bs buf))).
  assert (Hw1 : loop_frame w w1) by (destruct w; repeat split).
  assert (Hctr1 : read_size_ctr w1 = read_size_ctr w) by (destruct w; reflexivity).
  assert (Hstr1 : dev_stream w1 = rest) by (destruct w; reflexivity).
  assert (Hrd1 : reads w1 = reads w ++ [Build_ReadCall count status bs])
    by (destruct w; reflexivity).
  destruct (GIOStatus_eqb status G_IO_STATUS_NORMAL) eqn:Hst.
  - assert (status = G_IO_STATUS_NORMAL) as -> by (destruct status; done).
    destruct (Hnormal eq_refl) as (Hless & Hterm).
    destruct (loop_body_spec buf_size buff1 dat (store bs buf) w1)
      as (buff2 & dat2 & w2 & Hbody & Hfr2 & Hstr2 & Hrd2 & Hctr2 & Hcap);
      [lia | lia | simpl; lia | simpl; unfold count in Hle; lia | reflexivity |].
    rewrite Hbody. simpl fst. simpl snd.
    assert (Hbuf2 : exists buf2, data buff2 = Some buf2 /\
                                 length buf2 = Z.to_nat buf_size).
    { simpl in Hcap.
      destruct (buf_size <=? Z.of_nat (length bs)).
      - destruct Hcap as (Hb & _). eexists. split; [exact Hb |].
        rewrite length_replicate. reflexivity.
      - destruct Hcap as (-> & _). eexists. split; [reflexivity |].
        rewrite length_store by lia. exact Hlen. }
    destruct Hbuf2 as (buf2 & Hbuf2 & Hlen2).
    assert (Hmono : read_size_ctr w <= read_size_ctr w2 < buf_size).
    { rewrite Hctr2, Hctr1. simpl.
      destruct (Z.leb_spec buf_size (read_size_ctr w + Z.of_nat (length bs))); lia. }
    destruct (IH buff2 dat2 buf2 w2) as (buff' & dat' & w' & new & buf' & Hrun
                                         & Hfr & Hctr' & Hbuf' & Hrd' & Hdat'
                                         & Hall);
      [lia | exact Hbuf2 | exact Hlen2 | rewrite Hstr2, Hstr1; lia |].
    exists buff', dat', w', (Build_ReadCall count G_IO_STATUS_NORMAL bs :: new), buf'.
    rewrite Hstr2, Hstr1, Hterm in Hrun.
    split; [exact Hrun |].
    split; [eapply loop_frame_trans; [exact Hw1 |];
            eapply loop_frame_trans; [exact Hfr2 | exact Hfr] |].
    split; [lia |]. split; [exact Hbuf' |].
    split; [rewrite Hrd', Hrd2, Hrd1, <- app_assoc; reflexivity |].
    split.
    + rewrite Hdat', last_whole_record_cons. f_equal.
      unfold whole_record. simpl. simpl in Hcap.
      destruct (Z.leb_spec buf_size (Z.of_nat (length bs))) as [Hwhole | Hpart].
      * destruct Hcap as (_ & ->). f_equal. apply store_whole.
        unfold count in Hle. lia.
      * destruct Hcap as (_ & ->). reflexivity.
    + constructor; [simpl; unfold count in Hle; lia |].
      eapply Forall_impl; [exact Hall |]. simpl. intros r Hr. lia.
  - assert (Hne : status <> G_IO_STATUS_NORMAL) by (intros ->; discriminate).
    destruct (Hother Hne) as (-> & ->).
    exists buff1, dat, w1, [Build_ReadCall count (terminal_status (dev_stream w)) []],
      buf.
    split; [reflexivity |]. split; [exact Hw1 |].
    split; [rewrite Hctr1; lia |]. split; [reflexivity |].
    split; [exact Hrd1 |].
    split.
    + rewrite last_whole_record_cons. unfold whole_record. simpl. rewrite Hst.
      reflexivity.
    + constructor; [simpl; lia | constructor].
Qed.

Lemma last_whole_record_latest (buf_size : Z) (rs : list ReadCall) :
  forall init,
    last_whole_record buf_size init rs =
    match latest_whole_record buf_size rs with
    | Some r => Some (rc_bytes r)
    | None => init
    end.
Proof.
  unfold latest_whole_record.
  induction rs as [| r rs IH]; intros init; [reflexivity |].
  rewrite last_whole_record_cons, IH, filter_cons.
  destruct (whole_record buf_size r) eqn:Hr.
  - rewrite decide_True by reflexivity. rewrite last_cons.
    destruct (last (filter _ rs)); reflexivity.
  - rewrite decide_False by discriminate. reflexivity.
Qed.

(** One invocation of the Scan Reader on a session inside the
    invariant.  It does not run forever.  If the stream's terminal
    status is AGAIN it returns TRUE, stays inside the invariant and has
    made the callback calls of [invocation_deliveries]; on EOF or ERROR
    the assertion of line 99 stops the process. *)
Lemma read_orientation_spec (w : World) (d : DrvData) (b : BufferDrvData) :
  drv_data w = Some d -> buffer_data d = Some b ->
  0 <= read_size_ctr w < gsize_wrap (scan_size b) ->
  (terminal_status (dev_stream w) = G_IO_STATUS_AGAIN /\
   exists w' new,
     read_orientation G_IO_IN w = Done true w' /\
     drv_data w' = drv_data w /\ env w' = env w /\
     sources w' = sources w /\ next_source_id w' = next_source_id w /\
     read_size_ctr w <= read_size_ctr w' < gsize_wrap (scan_size b) /\
     Forall (fun r => Z.of_nat (length (rc_bytes r))
                      <= gsize_wrap (scan_size b) - read_size_ctr w) new /\
     reads w' = reads w ++ new /\
     delivered w' =
       delivered w ++
       invocation_deliveries (env w) d (gsize_wrap (scan_size b)) new) \/
  (terminal_status (dev_stream w) <> G_IO_STATUS_AGAIN /\
   read_orientation G_IO_IN w = Abort).
Proof.
  intros Hd Hb Hctr.
  set (buf_size := gsize_wrap (scan_size b)) in *.
  assert (Hsize : 0 < buf_size < gsize_modulus).
  { pose proof (gsize_wrap_range (scan_size b)). unfold buf_size. lia. }
  assert (Hz : (buf_size =? 0) = false) by (apply Z.eqb_neq; lia).
  set (w0 := set_heap (heap_add RScratch 1 (heap w)) w).
  set (buf := replicate (Z.to_nat buf_size) (uninit_byte (env w))).
  assert (Hopen :
    read_orientation G_IO_IN w =
    match read_loop (S (stream_measure (dev_stream w))) buf_size
            (Build_IIOSensorData 0 (Some buf)) (Build_IIOSensorData 0 None) w0 with
    | Done (status, buff, dat) w1 =>
        if GIOStatus_eqb status G_IO_STATUS_AGAIN then
          match data dat with
          | Some _ =>
              bind (process_scan dat d)
                (fun _ => bind (g_free RScratch (data dat))
                   (fun _ => bind (g_free RScratch (data buff))
                      (fun _ => ret true))) w1
          | None => bind (g_free RScratch (data buff)) (fun _ => ret true) w1
          end
        else Abort
    | Abort => Abort
    | Diverge => Diverge
    end).
  { assert (Hs0 : dev_stream w0 = dev_stream w) by (destruct w; reflexivity).
    unfold read_orientation.
    unfold bind, deref_drv_data, get, ret, g_assert, g_malloc, alloc, modify.
    rewrite Hd, Hb. fold buf_size. rewrite Hz.
    change (GIOCondition_eqb G_IO_IN G_IO_IN) with true.
    cbv beta iota. unfold bind, get, ret. cbv beta iota.
    fold w0. rewrite Hs0. fold buf.
    destruct (read_loop _ buf_size _ _ w0) as [[[status buff] dat] w1 | |];
      try reflexivity.
    destruct (GIOStatus_eqb status G_IO_STATUS_AGAIN); [| reflexivity].
    destruct (data dat); [| reflexivity].
    destruct (process_scan dat d w1); try reflexivity. }
  destruct (read_loop_spec buf_size Hsize (S (stream_measure (dev_stream w)))
              (Build_IIOSensorData 0 (Some buf)) (Build_IIOSensorData 0 None)
              buf w0)
    as (buff' & dat' & w1 & new & buf' & Hrun & Hfr & Hctr1 & Hbuf' & Hrd & Hdat
        & Hall);
    [destruct w; exact Hctr | reflexivity
    | unfold buf; apply length_replicate
    | destruct w; simpl; lia |].
  assert (Hs0 : dev_stream w0 = dev_stream w) by (destruct w; reflexivity).
  assert (Hc0 : read_size_ctr w0 = read_size_ctr w) by (destruct w; reflexivity).
  rewrite Hc0 in Hctr1, Hall. fold buf_size.
  rewrite Hs0 in Hrun. rewrite Hrun in Hopen. clear Hrun.
  destruct Hfr as (Fe & Fd & Fs & Fn & Fdl).
  assert (Hw0 : env w0 = env w /\ drv_data w0 = drv_data w /\
                sources w0 = sources w /\ next_source_id w0 = next_source_id w /\
                delivered w0 = delivered w /\ reads w0 = reads w)
    by (destruct w; repeat split).
  destruct Hw0 as (Ee & Ed & Es & En & Edl & Erd).
  destruct (terminal_status (dev_stream w)) eqn:Hterm;
    try (right; split; [discriminate | exact Hopen]).
  left. split; [reflexivity |].
  simpl GIOStatus_eqb in Hopen.
  rewrite last_whole_record_latest in Hdat. simpl in Hdat.
  unfold invocation_deliveries.
  clear Hs0 Hc0 Ee Ed Es En Edl Erd.
  destruct (latest_whole_record buf_size new) as [r |] eqn:Hlatest.
  - rewrite Hdat in Hopen. rewrite Hbuf' in Hopen.
    unfold bind at 1 in Hopen. rewrite process_scan_delivers in Hopen.
    rewrite Hdat in Hopen.
    eexists _, new. split; [exact Hopen |]. rewrite Hlatest.
    destruct w1 as [e1 dd1 ctr1 src1 nxt1 str1 hp1 dl1 rd1]. simpl in *.
    repeat split; try congruence; try lia.
  - rewrite Hdat in Hopen. rewrite Hbuf' in Hopen.
    eexists _, new. split; [exact Hopen |]. rewrite Hlatest, app_nil_r.
    destruct w1 as [e1 dd1 ctr1 src1 nxt1 str1 hp1 dl1 rd1]. simpl in *.
    repeat split; try congruence; try lia.
Qed.

Lemma partial_record_inv_session (w : World) :
  partial_record_inv w ->
  exists d b,
    drv_data w = Some d /\ buffer_data d = Some b /\
    0 <= read_size_ctr w < gsize_wrap (scan_size b).
Proof.
  intros (S & Hs & Hctr). unfold session_buf_size in Hs.
  destruct (drv_data w) as [d |]; [| discriminate].
  destruct (buffer_data d) as [b |] eqn:Hb; [| discriminate].
  exists d, b. injection Hs as <-. auto.
Qed.

(** Preservation within a session: from a state in which the counter
    satisfies 0 <= read_size_ctr < buf_size, any number of Scan Reader
    invocations, on any stream, either stops the process (the assertion
    of line 99 on EOF or ERROR) or returns in a state that satisfies it
    again; no invocation runs forever.  Whether a session starts in such
    a state is another matter, see [partial_record_inv_after_open]. *)
Theorem partial_record_state_invariant (n : nat) :
  forall (w : World) (Hinv : partial_record_inv w),
    match invocations n w with
    | Done _ w' => partial_record_inv w'
    | Abort => True
    | Diverge => False
    end.
Proof.
  induction n as [| n IH]; intros w Hinv; [exact Hinv |].
  destruct (partial_record_inv_session w Hinv) as (d & b & Hd & Hb & Hctr).
  simpl. unfold bind at 1.
  destruct (read_orientation_spec w d b Hd Hb Hctr)
    as [(_ & w' & new & Hrun & Hd' & _ & _ & _ & Hctr' & _) | (_ & Hrun)];
    rewrite Hrun; [| exact I].
  apply IH. exists (gsize_wrap (scan_size b)). split; [| lia].
  unfold session_buf_size. rewrite Hd', Hd, Hb. reflexivity.
Qed.

(** Whole-record reads: an invocation on a session inside the
    invariant whose reads end with "would block" returns; when some
    single read of the invocation handed over a whole record (the test of
    line 91), the callback is called exactly once, with the readings
    decoded from the last such read, and when none did it is not called.
    A record that several reads complete between them is not such a
    read. *)
Theorem scan_reader_delivers_latest_record (w : World) (d : DrvData)
    (b : BufferDrvData)
    (Hd : drv_data w = Some d) (Hb : buffer_data d = Some b)
    (Hctr : 0 <= read_size_ctr w < gsize_wrap (scan_size b))
    (Hagain : terminal_status (dev_stream w) = G_IO_STATUS_AGAIN) :
  exists w' new,
    read_orientation G_IO_IN w = Done true w' /\
    reads w' = reads w ++ new /\
    match latest_whole_record (gsize_wrap (scan_size b)) new with
    | Some r =>
        delivered w' =
        delivered w ++
        [Build_CallbackCall (callback_func d)
           (decode (env w) (Some (rc_bytes r)) (Some b)) (user_data d)]
    | None => delivered w' = delivered w
    end.
Proof.
  destruct (read_orientation_spec w d b Hd Hb Hctr)
    as [(_ & w' & new & Hrun & _ & _ & _ & _ & _ & _ & Hrd & Hdl) | (Hne & _)];
    [| contradiction].
  exists w', new. split; [exact Hrun |]. split; [exact Hrd |].
  unfold invocation_deliveries, delivery in Hdl. rewrite Hb in Hdl.
  destruct (latest_whole_record _ new); [exact Hdl |].
  by rewrite app_nil_r in Hdl.
Qed.

(** *** After a partial read *)

Lemma latest_whole_record_short (buf_size : Z) (rs : list ReadCall) :
  Forall (fun r => Z.of_nat (length (rc_bytes r)) < buf_size) rs ->
  latest_whole_record buf_size rs = None.
Proof.
  unfold latest_whole_record. intros Hall.
  induction Hall as [| r rs Hr _ IH]; [reflexivity |].
  rewrite filter_cons, decide_False; [exact IH |].
  unfold whole_record. intros H. apply andb_true_iff in H as (_ & H).
  apply Z.leb_le in H. lia.
Qed.

(** Once the counter is positive no invocation delivers anything: every
    read asks for fewer than [buf_size] bytes, so none brings a whole
    record, and the counter does not go back. *)
Lemma no_delivery_while_partial (w : World) (d : DrvData) (b : BufferDrvData) :
  drv_data w = Some d -> buffer_data d = Some b ->
  0 < read_size_ctr w < gsize_wrap (scan_size b) ->
  forall r w',
    read_orientation G_IO_IN w = Done r w' ->
    drv_data w' = drv_data w /\
    delivered w' = delivered w /\
    read_size_ctr w <= read_size_ctr w' < gsize_wrap (scan_size b).
Proof.
  intros Hd Hb Hctr r w' Hrun.
  destruct (read_orientation_spec w d b Hd Hb)
    as [(_ & w1 & new & Hrun1 & Hd1 & _ & _ & _ & Hctr1 & Hall & _ & Hdl)
       | (_ & Habort)];
    [lia | | rewrite Habort in Hrun; discriminate].
  rewrite Hrun1 in Hrun. injection Hrun as _ <-.
  split; [exact Hd1 |]. split; [| exact Hctr1].
  rewrite Hdl. unfold invocation_deliveries.
  rewrite latest_whole_record_short; [apply app_nil_r |].
  eapply Forall_impl; [exact Hall |]. simpl. intros rc Hrc. lia.
Qed.

Lemma no_delivery_after_partial_read (n : nat) :
  forall (w w' : World) (d : DrvData) (b : BufferDrvData),
    drv_data w = Some d -> buffer_data d = Some b ->
    0 < read_size_ctr w < gsize_wrap (scan_size b) ->
    invocations n w = Done tt w' ->
    delivered w' = delivered w /\
    read_size_ctr w <= read_size_ctr w' < gsize_wrap (scan_size b).
Proof.
  induction n as [| n IH]; intros w w' d b Hd Hb Hctr Hrun.
  - injection Hrun as <-. split; [reflexivity | lia].
  - simpl in Hrun. unfold bind at 1 in Hrun.
    destruct (read_orientation G_IO_IN w) as [r w1 | |] eqn:Hone;
      try discriminate.
    destruct (no_delivery_while_partial w d b Hd Hb Hctr r w1 Hone)
      as (Hd1 & Hdl1 & Hctr1).
    destruct (IH w1 w' d b) as (Hdl' & Hctr'); try assumption.
    + rewrite Hd1. exact Hd.
    + lia.
    + split; [congruence | lia].
Qed.

(** *** Opening a session *)

Lemma bind_modify {A} (g : World -> World) (f : unit -> M A) (w : World) :
  bind (modify g) f w = f tt (g w).
Proof. reflexivity. Qed.

Lemma bind_alloc {A} (k : Resource) (f : unit -> M A) (w : World) :
  bind (alloc k) f w = f tt (set_heap (heap_add k 1 (heap w)) w).
Proof. reflexivity. Qed.

(** [get_trigger_name]: the name when the database holds a device of
    that name, NULL otherwise; only the returned string stays
    allocated. *)
Lemma get_trigger_name_spec (device : GUdevDevice) (w : World) :
  get_trigger_name device w =
  Done (if has_trigger (env w) device then Some (trigger_name_of device)
        else None)
    (set_heap
       (heap_add RUdev (-1) (heap_add RUdev (-1)
          (heap_add RString (if has_trigger (env w) device then 1 else 0)
             (heap_add RUdev 1 (heap_add RUdev 1 (heap w))))))
       w).
Proof.
  destruct w as [e dd ctr src nxt str [a b c d f g h] dl rd].
  unfold has_trigger. run_norm. fold (trigger_name_of device).
  destruct (existsb _ _); run_norm; do 3 f_equal; lia.
Qed.

Lemma bind_get_trigger_name {A} (device : GUdevDevice)
    (f : option string -> M A) (w : World) :
  bind (get_trigger_name device) f w =
  f (if has_trigger (env w) device then Some (trigger_name_of device)
     else None)
    (set_heap
       (heap_add RUdev (-1) (heap_add RUdev (-1)
          (heap_add RString (if has_trigger (env w) device then 1 else 0)
             (heap_add RUdev 1 (heap_add RUdev 1 (heap w))))))
       w).
Proof. unfold bind. rewrite get_trigger_name_spec. reflexivity. Qed.

(** [open] up to the outcome of the trigger lookup and of the buffer
    negotiation. *)
Ltac open_start Hyes :=
  unfold iio_buffer_accel_open;
  rewrite bind_alloc, bind_modify, bind_get_trigger_name;
  world_norm; rewrite Hyes; cbv beta iota zeta.

(** NoTrigger: [open] returns FALSE, the session pointer is NULL again
    and every allocation has been given back. *)
Lemma open_no_trigger (device : GUdevDevice) (cb : ReadingsUpdateFunc)
    (ud : gpointer) (w : World) :
  has_trigger (env w) device = false ->
  iio_buffer_accel_open device cb ud w = Done false (set_drv_data None w).
Proof.
  intros Hno. destruct w as [e dd ctr src nxt str [a b c d f g h] dl rd].
  world_norm_in Hno. open_start Hno. run_norm.
  repeat f_equal; lia.
Qed.

(** BufferNegotiationFailed: the same. *)
Lemma open_negotiation_failed (device : GUdevDevice) (cb : ReadingsUpdateFunc)
    (ud : gpointer) (w : World) :
  has_trigger (env w) device = true ->
  buffer_drv_data_new device (trigger_name_of device) = None ->
  iio_buffer_accel_open device cb ud w = Done false (set_drv_data None w).
Proof.
  intros Hyes Hnew. destruct w as [e dd ctr src nxt str [a b c d f g h] dl rd].
  world_norm_in Hyes. open_start Hyes. rewrite Hnew. run_norm.
  repeat f_equal; lia.
Qed.

(** EncodingFailed: [g_error] (line 221) ends the process; [open] does
    not return. *)
Lemma open_encoding_failed (device : GUdevDevice) (cb : ReadingsUpdateFunc)
    (ud : gpointer) (w : World) (b : BufferDrvData) (file : string) :
  has_trigger (env w) device = true ->
  buffer_drv_data_new device (trigger_name_of device) = Some b ->
  udev_device_file device = Some file ->
  open_fails (env w) = false ->
  encoding_fails (env w) = true ->
  iio_buffer_accel_open device cb ud w = Abort.
Proof.
  intros Hyes Hnew Hfile Hopen Henc.
  destruct w as [e dd ctr src nxt str hp dl rd].
  world_norm_in Hyes. world_norm_in Hopen. world_norm_in Henc.
  open_start Hyes. rewrite Hnew. run_norm. rewrite Hfile. run_norm.
  rewrite Hopen. run_norm. rewrite Henc. reflexivity.
Qed.

(** StreamOpenFailed: [g_error] (line 212) ends the process as well. *)
Lemma open_stream_failed (device : GUdevDevice) (cb : ReadingsUpdateFunc)
    (ud : gpointer) (w : World) (b : BufferDrvData) (file : string) :
  has_trigger (env w) device = true ->
  buffer_drv_data_new device (trigger_name_of device) = Some b ->
  udev_device_file device = Some file ->
  open_fails (env w) = true ->
  iio_buffer_accel_open device cb ud w = Abort.
Proof.
  intros Hyes Hnew Hfile Hopen.
  destruct w as [e dd ctr src nxt str hp dl rd].
  world_norm_in Hyes. world_norm_in Hopen.
  open_start Hyes. rewrite Hnew. run_norm. rewrite Hfile. run_norm.
  rewrite Hopen. reflexivity.
Qed.

(** A successful [open]: the session it leaves in [drv_data], and what
    it does not touch, the reassembly counter among it. *)
Lemma open_success (device : GUdevDevice) (cb : ReadingsUpdateFunc)
    (ud : gpointer) (w : World) (b : BufferDrvData) (file : string) :
  has_trigger (env w) device = true ->
  buffer_drv_data_new device (trigger_name_of device) = Some b ->
  udev_device_file device = Some file ->
  open_fails (env w) = false ->
  encoding_fails (env w) = false ->
  exists w',
    iio_buffer_accel_open device cb ud w = Done true w' /\
    drv_data w' =
      Some (Build_DrvData
              (Some (Build_GIOChannel file (negb (nonblock_fails (env w)))))
              0 cb ud (Some device) (Some file) 0 (Some b)) /\
    env w' = env w /\
    read_size_ctr w' = read_size_ctr w /\
    sources w' = sources w /\ next_source_id w' = next_source_id w /\
    dev_stream w' = dev_stream w /\
    delivered w' = delivered w /\ reads w' = reads w.
Proof.
  intros Hyes Hnew Hfile Hopen Henc.
  destruct w as [e dd ctr src nxt str hp dl rd].
  world_norm_in Hyes. world_norm_in Hopen. world_norm_in Henc.
  open_start Hyes. rewrite Hnew. run_norm. rewrite Hfile. run_norm.
  rewrite Hopen. run_norm. rewrite Henc. run_norm.
  destruct (nonblock_fails e); run_norm;
    (eexists; split; [reflexivity |]); world_norm; repeat split.
Qed.

(** [close] on an open session returns, leaves no session and does not
    touch the reassembly counter either. *)
Lemma close_spec (w : World) (d : DrvData) :
  drv_data w = Some d ->
  exists w',
    iio_buffer_accel_close w = Done tt w' /\
    drv_data w' = None /\
    env w' = env w /\
    read_size_ctr w' = read_size_ctr w /\
    sources w' =
      (if io_source d =? 0 then sources w else sources w ∖ {[io_source d]}) /\
    delivered w' = delivered w.
Proof.
  intros Hd. destruct w as [e dd ctr src nxt str hp dl rd].
  world_norm_in Hd. subst dd.
  destruct d as [g io cb ud dv dp di bd].
  run_norm.
  destruct (0 <? io) eqn:Hpos, (io =? 0) eqn:Hzero;
    try (apply Z.ltb_lt in Hpos; apply Z.eqb_eq in Hzero; lia);
    cbv beta iota zeta delta [andb negb]; run_norm;
    destruct bd, g, dv; run_norm;
    (eexists; split; [reflexivity |]); world_norm; repeat split.
Qed.

(** The counter of a session opened after a close is the one the
    previous session left behind. *)
Lemma read_size_ctr_survives_reopen (device : GUdevDevice)
    (cb : ReadingsUpdateFunc) (ud : gpointer) (w w1 w2 : World) (d : DrvData) :
  drv_data w = Some d ->
  iio_buffer_accel_close w = Done tt w1 ->
  iio_buffer_accel_open device cb ud w1 = Done true w2 ->
  read_size_ctr w2 = read_size_ctr w.
Proof.
  intros Hd Hclose Hopen.
  destruct (close_spec w d Hd) as (w1' & Hc & _ & _ & Hctr & _).
  rewrite Hc in Hclose. injection Hclose as <-. rewrite <- Hctr.
  clear Hc Hctr Hd. revert Hopen.
  destruct (has_trigger (env w1') device) eqn:Hyes.
  - destruct (buffer_drv_data_new device (trigger_name_of device)) as [b |]
      eqn:Hnew.
    + destruct (udev_device_file device) as [file |] eqn:Hfile.
      * destruct (open_fails (env w1')) eqn:Hopen.
        -- rewrite (open_stream_failed device cb ud w1' b file) by assumption.
           discriminate.
        -- destruct (encoding_fails (env w1')) eqn:Henc.
           ++ rewrite (open_encoding_failed device cb ud w1' b file)
                by assumption.
              discriminate.
           ++ destruct (open_success device cb ud w1' b file)
                as (w' & Hrun & _ & _ & Hctr & _); try assumption.
              rewrite Hrun. intros H. injection H as <-. exact Hctr.
      * destruct w1' as [e dd ctr src nxt str hp dl rd].
        world_norm_in Hyes. open_start Hyes. rewrite Hnew. run_norm.
        rewrite Hfile. run_norm. discriminate.
    + rewrite open_negotiation_failed by assumption. discriminate.
  - rewrite open_no_trigger by assumption. discriminate.
Qed.

(** The invariant at the start of a session: a successful [open] on a
    device with a non-empty scan, in a world whose counter is 0 (as at
    program start), leaves a state inside the invariant. *)
Lemma open_establishes_partial_record_inv (device : GUdevDevice)
    (cb : ReadingsUpdateFunc) (ud : gpointer) (w w' : World) :
  read_size_ctr w = 0 ->
  (forall b, buffer_drv_data_new device (trigger_name_of device) = Some b ->
             0 < gsize_wrap (scan_size b)) ->
  iio_buffer_accel_open device cb ud w = Done true w' ->
  partial_record_inv w'.
Proof.
  intros Hzero Hsize.
  destruct (has_trigger (env w) device) eqn:Hyes;
    [| rewrite open_no_trigger by assumption; discriminate].
  destruct (buffer_drv_data_new device (trigger_name_of device)) as [b |]
    eqn:Hnew;
    [| rewrite open_negotiation_failed by assumption; discriminate].
  destruct (udev_device_file device) as [file |] eqn:Hfile.
  - destruct (open_fails (env w)) eqn:Hopen;
      [rewrite (open_stream_failed device cb ud w b file) by assumption;
       discriminate |].
    destruct (encoding_fails (env w)) eqn:Henc;
      [rewrite (open_encoding_failed device cb ud w b file) by assumption;
       discriminate |].
    destruct (open_success device cb ud w b file)
      as (w1 & Hrun & Hd & _ & Hctr & _); try assumption.
    rewrite Hrun. intros H. injection H as <-.
    exists (gsize_wrap (scan_size b)). split.
    + unfold session_buf_size. rewrite Hd. reflexivity.
    + rewrite Hctr, Hzero. specialize (Hsize b eq_refl). lia.
  - destruct w as [e dd ctr src nxt str hp dl rd].
    world_norm_in Hyes. open_start Hyes. rewrite Hnew. run_norm.
    rewrite Hfile. run_norm. discriminate.
Qed.

(** *** More on the trigger lookup and on [open] *)

Lemma has_trigger_iff (e : Env) (device : GUdevDevice) :
  has_trigger e device = true <->
  exists dev,
    In dev (udev_iio_devices e) /\
    g_udev_device_get_sysfs_attr dev "name" = Some (trigger_name_of device).
Proof.
  unfold has_trigger. rewrite existsb_exists.
  split; intros (dev & Hin & H); exists dev; (split; [exact Hin |]).
  - apply Z.eqb_eq, g_strcmp0_0 in H. congruence.
  - apply Z.eqb_eq, g_strcmp0_0. congruence.
Qed.

(** X1: [get_trigger_name] returns the name accel_3d-dev<number>
    exactly when some device of the udev database carries it as its name
    attribute, and NULL otherwise; it always returns, and when it does
    the only thing it has changed is that the returned string, if any, is
    allocated: the udev client and the device list are released on both
    paths. *)
Theorem get_trigger_name_finds_trigger (device : GUdevDevice) (w : World) :
  exists r w',
    get_trigger_name device w = Done r w' /\
    (r = Some (trigger_name_of device) \/ r = None) /\
    (is_Some r <->
     exists dev,
       In dev (udev_iio_devices (env w)) /\
       g_udev_device_get_sysfs_attr dev "name" = Some (trigger_name_of device)) /\
    w' = set_heap
           (heap_add RString (match r with Some _ => 1 | None => 0 end) (heap w))
           w.
Proof.
  rewrite get_trigger_name_spec.
  pose proof (has_trigger_iff (env w) device) as Hiff.
  destruct (has_trigger (env w) device); eexists _, _;
    (split; [reflexivity |]).
  - split; [by left |].
    split; [split; [intros _; by apply Hiff | intros _; by eexists] |].
    destruct w as [e dd ctr src nxt str [a b c d f g h] dl rd].
    world_norm. do 2 f_equal; lia.
  - split; [by right |].
    split; [split; [intros [x Hx]; discriminate Hx
                   | intros Hex; apply Hiff in Hex; discriminate Hex] |].
    destruct w as [e dd ctr src nxt str [a b c d f g h] dl rd].
    world_norm. do 2 f_equal; lia.
Qed.

Lemma trigger_name_is_not_accel_3d (device : GUdevDevice) :
  Some "accel_3d" <> Some (trigger_name_of device).
Proof. unfold trigger_name_of. simpl. discriminate. Qed.

(** X2: a device whose name attribute is a trigger name
    (accel_3d-dev<number>) is never taken for the accelerometer:
    [discover] returns FALSE on it. *)
Theorem trigger_device_is_not_discovered (dev device : GUdevDevice) (w : World)
  (Hname : g_udev_device_get_sysfs_attr dev "name"
           = Some (trigger_name_of device)) :
  iio_buffer_accel_discover dev w = Done false w.
Proof.
  unfold iio_buffer_accel_discover. rewrite Hname, !g_strcmp0_eqb.
  rewrite (bool_decide_eq_false_2 _ (trigger_name_is_not_accel_3d device)).
  destruct (bool_decide _); reflexivity.
Qed.

Lemma open_success_world (device : GUdevDevice)
    (cb : ReadingsUpdateFunc) (ud : gpointer) (w : World) (b : BufferDrvData)
    (file : string) :
  has_trigger (env w) device = true ->
  buffer_drv_data_new device (trigger_name_of device) = Some b ->
  udev_device_file device = Some file ->
  open_fails (env w) = false ->
  encoding_fails (env w) = false ->
  iio_buffer_accel_open device cb ud w =
  Done true
    (set_drv_data
       (Some (opened_session device cb ud b file
                (negb (nonblock_fails (env w)))))
       (set_heap (session_heap (heap w)) w)).
Proof.
  intros Hyes Hnew Hfile Hopen Henc.
  destruct w as [e dd ctr src nxt str [a1 a2 a3 a4 a5 a6 a7] dl rd].
  world_norm_in Hyes. world_norm_in Hopen. world_norm_in Henc.
  open_start Hyes. rewrite Hnew. run_norm. rewrite Hfile. run_norm.
  rewrite Hopen. run_norm. rewrite Henc. run_norm.
  unfold opened_session, session_heap.
  destruct (nonblock_fails e); run_norm; cbv beta iota delta [negb];
    do 3 f_equal; lia.
Qed.

(** X3: when the trigger is found, the buffer session is negotiated,
    the device file opens and takes the encoding, [open] returns TRUE and
    leaves exactly this behind: a session that is not polling, with the
    callback, the user data, the device, its path, the buffer session and
    the channel, and one allocation each for the session block, the
    buffer session, the channel and the device reference (the trigger
    name is freed).  A failure to make the channel non-blocking changes
    only the channel's flag. *)
Theorem open_success_leaves_session (device : GUdevDevice)
    (cb : ReadingsUpdateFunc) (ud : gpointer) (w : World) (b : BufferDrvData)
    (file : string)
  (Hyes : has_trigger (env w) device = true)
  (Hnew : buffer_drv_data_new device (trigger_name_of device) = Some b)
  (Hfile : udev_device_file device = Some file)
  (Hopen : open_fails (env w) = false)
  (Henc : encoding_fails (env w) = false) :
  iio_buffer_accel_open device cb ud w =
  Done true
    (set_drv_data
       (Some (opened_session device cb ud b file
                (negb (nonblock_fails (env w)))))
       (set_heap (session_heap (heap w)) w)).
Proof. by apply open_success_world. Qed.

(** X4: when no device carries the trigger name, or when the buffer
    helpers refuse the session, [open] returns FALSE and leaves the world
    as it found it, with [drv_data] NULL: everything it allocated on the
    way is released. *)
Theorem open_setup_failure_recovers (device : GUdevDevice)
    (cb : ReadingsUpdateFunc) (ud : gpointer) (w : World)
  (Hfail : has_trigger (env w) device = false \/
           buffer_drv_data_new device (trigger_name_of device) = None) :
  iio_buffer_accel_open device cb ud w = Done false (set_drv_data None w).
Proof.
  destruct (has_trigger (env w) device) eqn:Hyes.
  - destruct Hfail as [Hfail | Hnew]; [discriminate |].
    by apply open_negotiation_failed.
  - by apply open_no_trigger.
Qed.

(** X5: when the device file cannot be opened, the [g_error] of line
    212 ends the process: [open] does not return, whatever the rest of
    the platform says. *)
Theorem open_stream_failure_aborts (device : GUdevDevice)
    (cb : ReadingsUpdateFunc) (ud : gpointer) (w : World) (b : BufferDrvData)
    (file : string)
  (Hyes : has_trigger (env w) device = true)
  (Hnew : buffer_drv_data_new device (trigger_name_of device) = Some b)
  (Hfile : udev_device_file device = Some file)
  (Hopen : open_fails (env w) = true) :
  iio_buffer_accel_open device cb ud w = Abort.
Proof. by eapply open_stream_failed. Qed.

(** *** Closing a session *)

Lemma close_world (w : World) (d : DrvData) :
  drv_data w = Some d ->
  iio_buffer_accel_close w =
  Done tt
    (set_drv_data None
       (set_heap (released d (heap w))
          (set_sources
             (if io_source d =? 0 then sources w
              else sources w ∖ {[io_source d]})
             w))).
Proof.
  intros Hd. destruct w as [e dd ctr src nxt str [a1 a2 a3 a4 a5 a6 a7] dl rd].
  world_norm_in Hd. subst dd.
  destruct d as [g io cb ud dv dp di bd].
  unfold released, held. run_norm. rewrite andb_false_r.
  destruct (io =? 0); cbv beta iota delta [andb negb]; run_norm;
    destruct bd, g, dv; run_norm; do 3 f_equal; lia.
Qed.

(** X6: [close] on an open session always returns; afterwards
    [drv_data] is NULL, the session's watch, if it had one, is gone from
    the main context, and the buffer session, the channel, the device
    reference and the session block are released, each only if the
    session held it.  Nothing else changes. *)
Theorem close_releases_session (w : World) (d : DrvData)
  (Hd : drv_data w = Some d) :
  iio_buffer_accel_close w =
  Done tt
    (set_drv_data None
       (set_heap (released d (heap w))
          (set_sources
             (if io_source d =? 0 then sources w
              else sources w ∖ {[io_source d]})
             w))).
Proof. by apply close_world. Qed.

(** X7: a successful [open] followed by [close] leaves the world as
    it was before the [open], with [drv_data] NULL: nothing stays
    allocated and no source is attached or removed. *)
Theorem open_then_close_leaks_nothing (device : GUdevDevice)
    (cb : ReadingsUpdateFunc) (ud : gpointer) (w : World) (b : BufferDrvData)
    (file : string)
  (Hyes : has_trigger (env w) device = true)
  (Hnew : buffer_drv_data_new device (trigger_name_of device) = Some b)
  (Hfile : udev_device_file device = Some file)
  (Hopen : open_fails (env w) = false)
  (Henc : encoding_fails (env w) = false) :
  bind (iio_buffer_accel_open device cb ud) (fun _ => iio_buffer_accel_close) w
  = Done tt (set_drv_data None w).
Proof.
  unfold bind.
  rewrite (open_success_world device cb ud w b file) by assumption.
  erewrite close_world by (destruct w; reflexivity).
  destruct w as [e dd ctr src nxt str [a1 a2 a3 a4 a5 a6 a7] dl rd].
  unfold opened_session, session_heap, released, held. world_norm.
  do 3 f_equal; lia.
Qed.

(** X8: [open], [set_polling (TRUE)], [close] in a main context whose
    next source id is positive and not in use: the watch that polling
    attached is removed again, nothing stays allocated, and the world is
    as before the [open] except that [drv_data] is NULL and the main
    context has handed out one id. *)
Theorem open_poll_close_removes_watch (device : GUdevDevice)
    (cb : ReadingsUpdateFunc) (ud : gpointer) (w : World) (b : BufferDrvData)
    (file : string)
  (Hyes : has_trigger (env w) device = true)
  (Hnew : buffer_drv_data_new device (trigger_name_of device) = Some b)
  (Hfile : udev_device_file device = Some file)
  (Hopen : open_fails (env w) = false)
  (Henc : encoding_fails (env w) = false)
  (Hpos : 0 < next_source_id w)
  (Hfresh : next_source_id w ∉ sources w) :
  bind (iio_buffer_accel_open device cb ud)
    (fun _ => bind (iio_buffer_accel_set_polling true)
       (fun _ => iio_buffer_accel_close)) w
  = Done tt (set_next_source_id (next_source_id w + 1) (set_drv_data None w)).
Proof.
  unfold bind.
  rewrite (open_success_world device cb ud w b file) by assumption.
  erewrite set_polling_true_disabled
    by (destruct w; unfold opened_session; reflexivity).
  erewrite close_world by (destruct w; reflexivity).
  destruct w as [e dd ctr src nxt str [a1 a2 a3 a4 a5 a6 a7] dl rd].
  world_norm_in Hpos. world_norm_in Hfresh.
  unfold opened_session, session_heap, released, held. world_norm.
  assert (Hz : (nxt =? 0) = false) by (apply Z.eqb_neq; lia).
  rewrite Hz.
  replace ((src ∪ {[nxt]}) ∖ {[nxt]}) with src by set_solver.
  do 3 f_equal; lia.
Qed.

(** X9: on a session that is not polling, enabling and then disabling
    polling leaves the session and the sources of the main context as
    they were; only the main context's id counter has moved on. *)
Theorem set_polling_on_off_round_trip (w : World) (d : DrvData)
    (c : GIOChannel)
  (Hd : drv_data w = Some d)
  (Hio : io_source d = 0)
  (Hc : gio_r d = Some c)
  (Hpos : 0 < next_source_id w)
  (Hfresh : next_source_id w ∉ sources w) :
  set_polling_seq [true; false] w
  = Done tt (set_next_source_id (next_source_id w + 1) w).
Proof.
  simpl. unfold bind.
  rewrite (set_polling_true_disabled w d c Hd Hio Hc).
  erewrite set_polling_false_enabled
    by (destruct w, d; first [reflexivity | exact Hpos]).
  destruct w as [e dd ctr src nxt str hp dl rd].
  destruct d as [g io cb ud dv dp di bd].
  world_norm_in Hd. world_norm_in Hio. world_norm_in Hfresh. subst dd io.
  world_norm. unfold ret.
  replace ((src ∪ {[nxt]}) ∖ {[nxt]}) with src by set_solver.
  reflexivity.
Qed.

(** *** More on the Scan Reader *)

Lemma read_orientation_unfold (w : World) (d : DrvData) (b : BufferDrvData) :
  drv_data w = Some d -> buffer_data d = Some b ->
  gsize_wrap (scan_size b) <> 0 ->
  read_orientation G_IO_IN w =
  bind
    (read_loop (S (stream_measure (dev_stream w))) (gsize_wrap (scan_size b))
       (Build_IIOSensorData 0
          (Some (replicate (Z.to_nat (gsize_wrap (scan_size b)))
                   (uninit_byte (env w)))))
       (Build_IIOSensorData 0 None))
    (finish_read d)
    (set_heap (heap_add RScratch 1 (heap w)) w).
Proof.
  intros Hd Hb Hne.
  assert (Hz : (gsize_wrap (scan_size b) =? 0) = false) by by apply Z.eqb_neq.
  set (w0 := set_heap (heap_add RScratch 1 (heap w)) w).
  assert (Hs0 : dev_stream w0 = dev_stream w) by (destruct w; reflexivity).
  unfold read_orientation, finish_read.
  unfold bind, deref_drv_data, get, ret, g_assert, g_malloc, alloc, modify.
  rewrite Hd, Hb. rewrite Hz.
  change (GIOCondition_eqb G_IO_IN G_IO_IN) with true.
  cbv beta iota. unfold bind, get, ret. cbv beta iota.
  fold w0. rewrite Hs0.
  destruct (read_loop _ _ _ _ w0) as [[[status buff] dat] w1 | |];
    reflexivity.
Qed.

(** The end of an invocation whose loop ended on AGAIN with a scratch
    buffer in hand. *)
Lemma finish_read_again (d : DrvData) (buff dat : IIOSensorData)
    (buf : list byte) (w : World) :
  data buff = Some buf ->
  finish_read d (G_IO_STATUS_AGAIN, buff, dat) w =
  Done true
    (set_heap (heap_add RScratch (- 1 - live dat) (heap w))
       (set_delivered (delivered w ++ delivery_of (env w) d (data dat)) w)).
Proof.
  intros Hbuf. unfold finish_read, live, delivery_of.
  cbv beta iota delta [fst snd]. rewrite Hbuf.
  change (GIOStatus_eqb G_IO_STATUS_AGAIN G_IO_STATUS_AGAIN) with true.
  destruct w as [e dd ctr src nxt str [a1 a2 a3 a4 a5 a6 a7] dl rd].
  unfold bind at 1, g_assert, ret at 1.
  destruct (data dat) as [rec |] eqn:Hdat.
  - unfold bind at 1. unfold bind at 1. rewrite process_scan_delivers.
    rewrite Hdat.
    unfold g_free, release, bind, modify, ret. world_norm.
    do 3 f_equal; lia.
  - unfold g_free, release, bind, modify, ret. world_norm.
    rewrite app_nil_r. do 3 f_equal; lia.
Qed.

Lemma heap_add_add (k : Resource) (a b : Z) (h : Heap) :
  heap_add k a (heap_add k b h) = heap_add k (b + a) h.
Proof. destruct k, h; simpl; f_equal; lia. Qed.

Lemma heap_set_heap (h : Heap) (w : World) : heap (set_heap h w) = h.
Proof. reflexivity. Qed.

Lemma heap_add_0 (k : Resource) (h : Heap) : heap_add k 0 h = h.
Proof. destruct k, h; simpl; f_equal; lia. Qed.

Lemma read_chars_heap (buff buff' : IIOSensorData) (count : Z)
    (status : GIOStatus) (w w' : World) :
  read_chars buff count w = Done (status, buff') w' ->
  heap w' = heap w /\ live buff' = live buff.
Proof.
  unfold read_chars, bind, get, modify, ret, abort, live.
  destruct (g_io_channel_read_chars count (dev_stream w)) as [[st bs] rest].
  destruct (data buff) as [buf |].
  - destruct (length bs <=? length buf)%nat; [| discriminate].
    intros H. injection H as _ <- <-. destruct w; split; reflexivity.
  - destruct (Z.of_nat (length bs) =? 0); [| discriminate].
    intros H. injection H as _ <- <-. destruct w; split; reflexivity.
Qed.

Lemma loop_body_heap (buf_size : Z) (buff dat buff' dat' : IIOSensorData)
    (w w' : World) :
  loop_body buf_size buff dat w = Done (buff', dat') w' ->
  heap w' =
  heap_add RScratch (live buff' + live dat' - live buff - live dat) (heap w).
Proof.
  destruct w as [e dd ctr src nxt str hp dl rd].
  unfold loop_body, g_free, g_malloc, alloc, release, bind, get, modify, ret,
    live.
  world_norm.
  destruct (buf_size <=? gsize_wrap (ctr + read_size buff)); world_norm;
    (destruct (buf_size <=? read_size buff);
     [destruct (data dat); world_norm;
      (destruct (buf_size =? 0); world_norm;
       intros H; injection H as <- <- <-; simpl;
       destruct (data buff); destruct hp; simpl; f_equal; lia)
     | intros H; injection H as <- <- <-; simpl;
       destruct (data buff), (data dat); destruct hp; simpl; f_equal; lia]).
Qed.

Lemma read_loop_heap (buf_size : Z) (fuel : nat) :
  forall (buff dat buff' dat' : IIOSensorData) (status : GIOStatus)
         (w w' : World),
    read_loop fuel buf_size buff dat w = Done (status, buff', dat') w' ->
    heap w' =
    heap_add RScratch (live buff' + live dat' - live buff - live dat) (heap w).
Proof.
  induction fuel as [| fuel IH]; intros buff dat buff' dat' status w w' Hrun;
    [discriminate |].
  rewrite read_loop_unfold in Hrun.
  destruct (read_chars buff _ w) as [[st buff1] w1 | |] eqn:Hread;
    try discriminate.
  apply read_chars_heap in Hread as (Hh1 & Hl1).
  destruct (GIOStatus_eqb st G_IO_STATUS_NORMAL).
  - destruct (loop_body buf_size buff1 dat w1) as [[buff2 dat2] w2 | |] eqn:Hbody;
      try discriminate.
    apply loop_body_heap in Hbody. simpl in Hrun.
    apply IH in Hrun. rewrite Hrun, Hbody, Hh1, heap_add_add. f_equal. lia.
  - injection Hrun as <- <- <- <-. rewrite Hh1, Hl1.
    replace (live buff + live dat - live buff - live dat) with 0 by lia.
    symmetry. apply heap_add_0.
Qed.

(** X10: on a session inside the invariant, an invocation whose reads
    end on EOF or on ERROR instead of "would block" does not return: the
    assertion of line 99 ends the process.  So does, before any read, a
    notification for a condition other than G_IO_IN (line 80). *)
Theorem read_orientation_stops_on_eof_or_error (w : World) (d : DrvData)
    (b : BufferDrvData)
  (Hd : drv_data w = Some d) (Hb : buffer_data d = Some b)
  (Hctr : 0 <= read_size_ctr w < gsize_wrap (scan_size b)) :
  (terminal_status (dev_stream w) <> G_IO_STATUS_AGAIN ->
   read_orientation G_IO_IN w = Abort) /\
  (forall condition,
     condition <> G_IO_IN -> read_orientation condition w = Abort).
Proof.
  split.
  - intros Hterm.
    destruct (read_orientation_spec w d b Hd Hb Hctr) as [(Hagain & _) | (_ & H)];
      [contradiction | exact H].
  - intros condition Hne.
    unfold read_orientation, bind, deref_drv_data, ret, g_assert, abort.
    rewrite Hd, Hb. destruct condition; [contradiction | | | | |]; reflexivity.
Qed.

(** X11: on a session inside the invariant, an invocation whose reads
    end on "would block" returns TRUE (the watch stays), and it returns
    every scratch buffer it took: the heap is as before, and so are the
    session, the platform and the sources of the main context. *)
Theorem read_orientation_frees_its_buffers (w : World) (d : DrvData)
    (b : BufferDrvData)
  (Hd : drv_data w = Some d) (Hb : buffer_data d = Some b)
  (Hctr : 0 <= read_size_ctr w < gsize_wrap (scan_size b))
  (Hagain : terminal_status (dev_stream w) = G_IO_STATUS_AGAIN) :
  exists w',
    read_orientation G_IO_IN w = Done true w' /\
    heap w' = heap w /\
    drv_data w' = drv_data w /\ env w' = env w /\
    sources w' = sources w /\ next_source_id w' = next_source_id w.
Proof.
  set (buf_size := gsize_wrap (scan_size b)) in *.
  assert (Hsize : 0 < buf_size < gsize_modulus).
  { pose proof (gsize_wrap_range (scan_size b)). unfold buf_size. lia. }
  rewrite (read_orientation_unfold w d b Hd Hb) by (fold buf_size; lia).
  fold buf_size.
  set (w0 := set_heap (heap_add RScratch 1 (heap w)) w).
  set (buf := replicate (Z.to_nat buf_size) (uninit_byte (env w))).
  destruct (read_loop_spec buf_size Hsize (S (stream_measure (dev_stream w)))
              (Build_IIOSensorData 0 (Some buf)) (Build_IIOSensorData 0 None)
              buf w0)
    as (buff' & dat' & w1 & new & buf' & Hrun & Hfr & _ & Hbuf' & _);
    [destruct w; exact Hctr | reflexivity
    | unfold buf; apply length_replicate
    | destruct w; simpl; lia |].
  assert (Hs0 : dev_stream w0 = dev_stream w) by (destruct w; reflexivity).
  rewrite Hs0, Hagain in Hrun.
  pose proof (read_loop_heap _ _ _ _ _ _ _ _ _ Hrun) as Hheap.
  unfold bind. rewrite Hrun.
  rewrite (finish_read_again d buff' dat' buf' w1 Hbuf').
  eexists. split; [reflexivity |].
  destruct Hfr as (Fe & Fd & Fs & Fn & _).
  assert (Hl : live buff' = 1) by (unfold live; by rewrite Hbuf').
  split.
  - rewrite heap_set_heap, Hheap, Hl.
    replace (heap w0) with (heap_add RScratch 1 (heap w))
      by (destruct w; reflexivity).
    rewrite !heap_add_add.
    match goal with
    | |- heap_add _ ?x _ = _ => replace x with 0 by (unfold live; simpl; lia)
    end.
    apply heap_add_0.
  - destruct w1 as [e1 dd1 ctr1 src1 nxt1 str1 hp1 dl1 rd1].
    destruct w as [e dd ctr src nxt str hp dl rd].
    world_norm. world_norm_in Fe. world_norm_in Fd. world_norm_in Fs.
    world_norm_in Fn. repeat split; assumption.
Qed.

(** The loop on an empty scan: whatever the fuel, it is used up. *)
Lemma read_loop_empty_scan (fuel : nat) :
  forall (buff dat : IIOSensorData) (w : World),
    read_size_ctr w = 0 -> data buff = None ->
    read_loop fuel 0 buff dat w = Diverge.
Proof.
  induction fuel as [| fuel IH]; intros buff dat w Hctr Hbuf; [reflexivity |].
  rewrite read_loop_unfold. rewrite Hctr.
  change (gsize_wrap (0 - 0)) with 0.
  unfold read_chars, bind, get, modify, ret. rewrite Hbuf.
  change (g_io_channel_read_chars 0 (dev_stream w))
    with (G_IO_STATUS_NORMAL, @nil byte, dev_stream w).
  cbv beta iota.
  change (Z.of_nat (length (@nil byte)) =? 0) with true. cbv beta iota.
  change (GIOStatus_eqb G_IO_STATUS_NORMAL G_IO_STATUS_NORMAL) with true.
  cbv beta iota.
  destruct w as [e dd ctr src nxt str hp dl rd]. world_norm_in Hctr. subst ctr.
  unfold loop_body, g_free, g_malloc, release, bind, get, modify, ret.
  world_norm.
  change (gsize_wrap (0 + Z.of_nat (length (@nil byte)))) with 0.
  change (0 <=? 0) with true. cbv beta iota. world_norm.
  change (gsize_wrap (0 - Z.of_nat (length (@nil byte)))) with 0.
  change (0 <=? Z.of_nat (length (@nil byte))) with true.
  change (0 =? 0) with true. cbv beta iota.
  destruct (data dat); world_norm; apply IH; reflexivity.
Qed.

(** X12: on a session whose scan is empty (scan size 0) and whose
    counter is 0, an invocation never returns, whatever the stream holds:
    every read asks for 0 bytes and is answered NORMAL, so the loop of
    lines 85-97 runs on; in the model no amount of fuel lets the loop
    end. *)
Theorem empty_scan_hangs (w : World) (d : DrvData) (b : BufferDrvData)
  (Hd : drv_data w = Some d) (Hb : buffer_data d = Some b)
  (Hempty : gsize_wrap (scan_size b) = 0)
  (Hctr : read_size_ctr w = 0) :
  read_orientation G_IO_IN w = Diverge /\
  forall fuel,
    read_loop fuel (gsize_wrap (scan_size b)) (Build_IIOSensorData 0 None)
      (Build_IIOSensorData 0 None) w
    = Diverge.
Proof.
  split.
  - unfold read_orientation, bind, deref_drv_data, ret, g_assert, g_malloc, get.
    rewrite Hd, Hb, Hempty.
    change (GIOCondition_eqb G_IO_IN G_IO_IN) with true.
    change (0 =? 0) with true. cbv beta iota delta [bind get ret].
    rewrite read_loop_empty_scan by first [assumption | reflexivity].
    reflexivity.
  - intros fuel. rewrite Hempty. apply read_loop_empty_scan;
      [assumption | reflexivity].
Qed.

(** X13: on a session whose counter is positive (a record is partly
    read), no later invocation calls the callback, however many follow
    and whatever the stream holds, and the counter never goes back; every
    invocation returns or is stopped by the assertion of line 99. *)
Theorem partial_read_blocks_later_deliveries (n : nat) :
  forall (w : World) (d : DrvData) (b : BufferDrvData)
    (Hd : drv_data w = Some d) (Hb : buffer_data d = Some b)
    (Hctr : 0 < read_size_ctr w < gsize_wrap (scan_size b)),
    match invocations n w with
    | Done _ w' =>
        delivered w' = delivered w /\
        read_size_ctr w <= read_size_ctr w' < gsize_wrap (scan_size b)
    | Abort => True
    | Diverge => False
    end.
Proof.
  induction n as [| n IH]; intros w d b Hd Hb Hctr.
  - simpl. unfold ret. split; [reflexivity | lia].
  - simpl. unfold bind at 1.
    destruct (read_orientation_spec w d b Hd Hb)
      as [(_ & w1 & new & Hrun & _) | (_ & Hrun)]; [lia | | by rewrite Hrun].
    rewrite Hrun.
    destruct (no_delivery_while_partial w d b Hd Hb Hctr true w1 Hrun)
      as (Hd1 & Hdl1 & Hctr1).
    specialize (IH w1 d b).
    destruct (invocations n w1) as [[] w' | |].
    + destruct IH as (Hdl' & Hctr'); [congruence | exact Hb | lia |].
      split; [congruence | lia].
    + exact I.
    + apply IH; [congruence | exact Hb | lia].
Qed.

Lemma channel_would_block (count : Z) (rest : list ChanEvent) :
  0 < count ->
  g_io_channel_read_chars count (WouldBlock :: rest)
  = (G_IO_STATUS_AGAIN, [], rest).
Proof.
  intros Hc. unfold g_io_channel_read_chars.
  assert (Hz : (count =? 0) = false) by (apply Z.eqb_neq; lia).
  by rewrite Hz.
Qed.

Lemma channel_chunk_fits (count : Z) (bs : list byte) (rest : list ChanEvent) :
  0 < count -> (length bs <= Z.to_nat count)%nat ->
  g_io_channel_read_chars count (Chunk bs :: rest)
  = (G_IO_STATUS_NORMAL, bs, rest).
Proof.
  intros Hc Hle. unfold g_io_channel_read_chars.
  assert (Hz : (count =? 0) = false) by (apply Z.eqb_neq; lia).
  rewrite Hz. apply Nat.leb_le in Hle. by rewrite Hle.
Qed.

(** The loop on a burst of whole records: each is read in one read of
    [buf_size] bytes, the counter stays 0, and the last one is the
    captured buffer. *)
Lemma read_loop_aligned (buf_size : Z) (Hsize : 0 < buf_size < gsize_modulus)
    (rest : list ChanEvent) (recs : list (list byte)) :
  forall (fuel : nat) (buff dat : IIOSensorData) (buf : list byte) (w : World),
    Forall (fun r => Z.of_nat (length r) = buf_size) recs ->
    read_size_ctr w = 0 ->
    dev_stream w = map Chunk recs ++ WouldBlock :: rest ->
    data buff = Some buf -> length buf = Z.to_nat buf_size ->
    (length recs < fuel)%nat ->
    exists buff' dat' w' buf',
      read_loop fuel buf_size buff dat w
      = Done (G_IO_STATUS_AGAIN, buff', dat') w' /\
      loop_frame w w' /\
      read_size_ctr w' = 0 /\
      dev_stream w' = rest /\
      data buff' = Some buf' /\
      data dat' = match last recs with
                  | Some r => Some r
                  | None => data dat
                  end /\
      reads w' =
        reads w ++
        map (Build_ReadCall buf_size G_IO_STATUS_NORMAL) recs ++
        [Build_ReadCall buf_size G_IO_STATUS_AGAIN []].
Proof.
  induction recs as [| r recs IH];
    intros fuel buff dat buf w Hall Hctr Hstr Hbuf Hlen Hfuel;
    (destruct fuel as [| fuel]; [simpl in Hfuel; lia |]);
    rewrite read_loop_unfold; rewrite Hctr, Z.sub_0_r;
    rewrite (gsize_wrap_small buf_size) by lia;
    pose proof (read_chars_spec buff buf buf_size w Hbuf) as Hread;
    rewrite Hstr in Hread; simpl map in Hread; simpl app in Hread.
  - rewrite channel_would_block in Hread by lia.
    rewrite Hread by lia.
    change (GIOStatus_eqb G_IO_STATUS_AGAIN G_IO_STATUS_NORMAL) with false.
    cbv iota.
    eexists _, _, _, _. split; [reflexivity |].
    split; [destruct w; repeat split |].
    split; [destruct w; exact Hctr |].
    split; [destruct w; reflexivity |].
    split; [reflexivity |]. split; [reflexivity |].
    destruct w; reflexivity.
  - apply Forall_cons in Hall as (Hr & Hall).
    rewrite channel_chunk_fits in Hread by lia.
    rewrite Hread by lia. clear Hread.
    change (GIOStatus_eqb G_IO_STATUS_NORMAL G_IO_STATUS_NORMAL) with true.
    cbv iota.
    set (w1 := set_reads _ _).
    set (buff1 := Build_IIOSensorData _ _).
    assert (Hctr1 : read_size_ctr w1 = 0) by (destruct w; exact Hctr).
    assert (Hstr1 : dev_stream w1 = map Chunk recs ++ WouldBlock :: rest)
      by (destruct w; reflexivity).
    assert (Hrd1 : reads w1
                   = reads w ++ [Build_ReadCall buf_size G_IO_STATUS_NORMAL r])
      by (destruct w; reflexivity).
    assert (Hw1 : loop_frame w w1) by (destruct w; repeat split).
    destruct (loop_body_spec buf_size buff1 dat (store r buf) w1)
      as (buff2 & dat2 & w2 & Hbody & Hfr2 & Hstr2 & Hrd2 & Hctr2 & Hcap);
      [lia | lia | simpl; lia | simpl; lia | reflexivity |].
    rewrite Hbody. simpl fst. simpl snd.
    rewrite Hctr1 in Hctr2. simpl in Hctr2, Hcap. rewrite Hr in Hctr2, Hcap.
    rewrite Z.add_0_l, Z.leb_refl in Hctr2. rewrite Z.leb_refl in Hcap.
    destruct Hcap as (Hbuf2 & Hdat2).
    rewrite store_whole in Hdat2 by lia.
    destruct (IH fuel buff2 dat2
                (replicate (Z.to_nat buf_size) (uninit_byte (env w))) w2
                Hall Hctr2) as
      (buff' & dat' & w' & buf' & Hrun & Hfr & Hctr' & Hstr' & Hbuf' & Hdat'
       & Hlog);
      [congruence | exact Hbuf2 | apply length_replicate | simpl in Hfuel; lia |].
    exists buff', dat', w', buf'. split; [exact Hrun |].
    split; [eapply loop_frame_trans; [exact Hw1 |];
            eapply loop_frame_trans; [exact Hfr2 | exact Hfr] |].
    split; [exact Hctr' |]. split; [exact Hstr' |]. split; [exact Hbuf' |].
    split.
    + rewrite Hdat', Hdat2, last_cons. destruct (last recs); reflexivity.
    + rewrite Hlog, Hrd2, Hrd1, <- app_assoc. reflexivity.
Qed.

Lemma read_orientation_aligned (w : World) (d : DrvData)
    (b : BufferDrvData) (recs : list (list byte)) (rest : list ChanEvent)
  (Hd : drv_data w = Some d) (Hb : buffer_data d = Some b)
  (Hall : Forall (fun r => Z.of_nat (length r) = gsize_wrap (scan_size b)) recs)
  (Hpos : 0 < gsize_wrap (scan_size b))
  (Hctr : read_size_ctr w = 0)
  (Hstr : dev_stream w = map Chunk recs ++ WouldBlock :: rest) :
  exists w',
    read_orientation G_IO_IN w = Done true w' /\
    drv_data w' = drv_data w /\ env w' = env w /\
    read_size_ctr w' = 0 /\
    dev_stream w' = rest /\
    reads w' =
      reads w ++
      map (Build_ReadCall (gsize_wrap (scan_size b)) G_IO_STATUS_NORMAL) recs ++
      [Build_ReadCall (gsize_wrap (scan_size b)) G_IO_STATUS_AGAIN []] /\
    delivered w' =
      delivered w ++
      match last recs with
      | Some r =>
          [Build_CallbackCall (callback_func d)
             (decode (env w) (Some r) (Some b)) (user_data d)]
      | None => []
      end.
Proof.
  set (buf_size := gsize_wrap (scan_size b)) in *.
  assert (Hsize : 0 < buf_size < gsize_modulus).
  { pose proof (gsize_wrap_range (scan_size b)). unfold buf_size. lia. }
  rewrite (read_orientation_unfold w d b Hd Hb) by (fold buf_size; lia).
  fold buf_size.
  set (w0 := set_heap (heap_add RScratch 1 (heap w)) w).
  set (buf := replicate (Z.to_nat buf_size) (uninit_byte (env w))).
  destruct (read_loop_aligned buf_size Hsize rest recs
              (S (stream_measure (dev_stream w)))
              (Build_IIOSensorData 0 (Some buf)) (Build_IIOSensorData 0 None)
              buf w0 Hall)
    as (buff' & dat' & w1 & buf' & Hrun & Hfr & Hctr1 & Hstr1 & Hbuf' & Hdat
        & Hlog);
    [destruct w; exact Hctr | destruct w; exact Hstr | reflexivity
    | unfold buf; apply length_replicate | |].
  { rewrite Hstr. clear. induction recs as [| r recs IH]; simpl; lia. }
  unfold bind. rewrite Hrun.
  rewrite (finish_read_again d buff' dat' buf' w1 Hbuf').
  eexists. split; [reflexivity |].
  destruct Hfr as (Fe & Fd & _ & _ & Fdl).
  assert (Hw0 : env w0 = env w /\ delivered w0 = delivered w /\
                reads w0 = reads w /\ drv_data w0 = drv_data w)
    by (destruct w; repeat split).
  destruct Hw0 as (Ee & Edl & Erd & Edd).
  rewrite Ee in Fe. rewrite Edl in Fdl. rewrite Erd in Hlog.
  rewrite Edd in Fd.
  simpl data in Hdat.
  destruct w1 as [e1 dd1 ctr1 src1 nxt1 str1 hp1 dl1 rd1].
  world_norm. world_norm_in Hctr1. world_norm_in Hstr1. world_norm_in Hlog.
  world_norm_in Fe. world_norm_in Fdl. world_norm_in Fd.
  split; [exact Fd |]. split; [exact Fe |].
  split; [exact Hctr1 |]. split; [exact Hstr1 |].
  split; [exact Hlog |].
  rewrite Fdl, Fe. f_equal.
  unfold delivery_of, delivery. rewrite Hdat, Hb.
  destruct (last recs); reflexivity.
Qed.

(** X14: on a session whose counter is 0, an invocation on a burst of
    whole records (every chunk exactly one scan long) followed by "would
    block" returns TRUE, reads each record with one read of the scan
    size, calls the callback once with the readings decoded from the last
    record of the burst (not at all when the burst is empty), leaves the
    counter at 0 and the stream at what follows the "would block". *)
Theorem aligned_burst_is_delivered (w : World) (d : DrvData)
    (b : BufferDrvData) (recs : list (list byte)) (rest : list ChanEvent)
  (Hd : drv_data w = Some d) (Hb : buffer_data d = Some b)
  (Hall : Forall (fun r => Z.of_nat (length r) = gsize_wrap (scan_size b)) recs)
  (Hpos : 0 < gsize_wrap (scan_size b))
  (Hctr : read_size_ctr w = 0)
  (Hstr : dev_stream w = map Chunk recs ++ WouldBlock :: rest) :
  exists w',
    read_orientation G_IO_IN w = Done true w' /\
    read_size_ctr w' = 0 /\
    dev_stream w' = rest /\
    reads w' =
      reads w ++
      map (Build_ReadCall (gsize_wrap (scan_size b)) G_IO_STATUS_NORMAL) recs ++
      [Build_ReadCall (gsize_wrap (scan_size b)) G_IO_STATUS_AGAIN []] /\
    delivered w' =
      delivered w ++
      match last recs with
      | Some r =>
          [Build_CallbackCall (callback_func d)
             (decode (env w) (Some r) (Some b)) (user_data d)]
      | None => []
      end.
Proof.
  destruct (read_orientation_aligned w d b recs rest Hd Hb Hall Hpos Hctr Hstr)
    as (w' & Hrun & _ & _ & H).
  exists w'. split; [exact Hrun | exact H].
Qed.

Lemma invocations_aligned (b : BufferDrvData) (d : DrvData)
    (bursts : list (list (list byte))) :
  forall (w : World) (rest : list ChanEvent),
    drv_data w = Some d -> buffer_data d = Some b ->
    Forall (Forall (fun r => Z.of_nat (length r) = gsize_wrap (scan_size b)))
      bursts ->
    0 < gsize_wrap (scan_size b) ->
    read_size_ctr w = 0 ->
    dev_stream w = burst_stream bursts ++ rest ->
    exists w',
      invocations (length bursts) w = Done tt w' /\
      read_size_ctr w' = 0 /\
      dev_stream w' = rest /\
      delivered w' = delivered w ++ burst_deliveries (env w) d b bursts.
Proof.
  induction bursts as [| recs bursts IH];
    intros w rest Hd Hb Hall Hpos Hctr Hstr.
  - exists w. split; [reflexivity |]. split; [exact Hctr |].
    split; [exact Hstr |]. simpl. by rewrite app_nil_r.
  - apply Forall_cons in Hall as (Hrecs & Hall).
    simpl in Hstr. rewrite <- !app_assoc in Hstr. simpl in Hstr.
    destruct (read_orientation_aligned w d b recs
                (burst_stream bursts ++ rest) Hd Hb Hrecs Hpos Hctr Hstr)
      as (w1 & Hrun & Hd1 & He1 & Hctr1 & Hstr1 & _ & Hdl1).
    destruct (IH w1 rest) as (w' & Hrun' & Hctr' & Hstr' & Hdl');
      [congruence | exact Hb | exact Hall | exact Hpos | exact Hctr1
      | exact Hstr1 |].
    exists w'. simpl. unfold bind at 1. rewrite Hrun.
    split; [exact Hrun' |]. split; [exact Hctr' |]. split; [exact Hstr' |].
    rewrite Hdl', Hdl1, He1, <- app_assoc. reflexivity.
Qed.

(** X15: on a session whose counter is 0, a stream of bursts of whole
    records, each burst ending in "would block", is consumed by one
    invocation per burst: every invocation returns, the callback is
    called once per non-empty burst with the readings of its last record,
    in order, and the counter is 0 at the end. *)
Theorem aligned_stream_delivers_each_burst (w : World) (d : DrvData)
    (b : BufferDrvData) (bursts : list (list (list byte)))
    (rest : list ChanEvent)
  (Hd : drv_data w = Some d) (Hb : buffer_data d = Some b)
  (Hall : Forall (Forall (fun r => Z.of_nat (length r)
                                   = gsize_wrap (scan_size b))) bursts)
  (Hpos : 0 < gsize_wrap (scan_size b))
  (Hctr : read_size_ctr w = 0)
  (Hstr : dev_stream w = burst_stream bursts ++ rest) :
  exists w',
    invocations (length bursts) w = Done tt w' /\
    read_size_ctr w' = 0 /\
    dev_stream w' = rest /\
    delivered w' = delivered w ++ burst_deliveries (env w) d b bursts.
Proof. by apply invocations_aligned. Qed.

(** *** The invariant at the start of a session *)

(** A successful [open] leaves the session negotiated for the device and
    the counter it found. *)
Lemma open_session_buf_size (device : GUdevDevice) (cb : ReadingsUpdateFunc)
    (ud : gpointer) (w w' : World) (b : BufferDrvData) :
  buffer_drv_data_new device (trigger_name_of device) = Some b ->
  iio_buffer_accel_open device cb ud w = Done true w' ->
  session_buf_size w' = Some (gsize_wrap (scan_size b)) /\
  read_size_ctr w' = read_size_ctr w.
Proof.
  intros Hnew.
  destruct (has_trigger (env w) device) eqn:Hyes;
    [| rewrite open_no_trigger by assumption; discriminate].
  destruct (udev_device_file device) as [file |] eqn:Hfile.
  - destruct (open_fails (env w)) eqn:Hopen;
      [rewrite (open_stream_failed device cb ud w b file) by assumption;
       discriminate |].
    destruct (encoding_fails (env w)) eqn:Henc;
      [rewrite (open_encoding_failed device cb ud w b file) by assumption;
       discriminate |].
    destruct (open_success device cb ud w b file)
      as (w1 & Hrun & Hd & _ & Hctr & _); try assumption.
    rewrite Hrun. intros H. injection H as <-.
    split; [| exact Hctr].
    unfold session_buf_size. rewrite Hd. reflexivity.
  - destruct w as [e dd ctr src nxt str hp dl rd].
    world_norm_in Hyes. open_start Hyes. rewrite Hnew. run_norm.
    rewrite Hfile. run_norm. discriminate.
Qed.

(** Hence the invariant holds after a successful [open] exactly when the
    counter that [open] found is below the record size of the new
    session: [open] neither resets the counter nor looks at it. *)
Lemma partial_record_inv_after_open (device : GUdevDevice)
    (cb : ReadingsUpdateFunc) (ud : gpointer) (w w' : World)
    (b : BufferDrvData) :
  buffer_drv_data_new device (trigger_name_of device) = Some b ->
  iio_buffer_accel_open device cb ud w = Done true w' ->
  partial_record_inv w' <->
  0 <= read_size_ctr w < gsize_wrap (scan_size b).
Proof.
  intros Hnew Hopen.
  destruct (open_session_buf_size device cb ud w w' b Hnew Hopen)
    as (Hsize & Hctr).
  unfold partial_record_inv. rewrite Hsize, Hctr. split.
  - intros (S & HS & Hin). injection HS as <-. exact Hin.
  - intros Hin. by exists (gsize_wrap (scan_size b)).
Qed.

(** A session opened after a close, on a device whose record is not
    longer than the count the closed session left behind, starts
    outside the invariant. *)
Lemma reopen_outside_partial_record_inv (device : GUdevDevice)
    (cb : ReadingsUpdateFunc) (ud : gpointer) (w w1 w2 : World)
    (d : DrvData) (b : BufferDrvData) :
  drv_data w = Some d ->
  iio_buffer_accel_close w = Done tt w1 ->
  buffer_drv_data_new device (trigger_name_of device) = Some b ->
  iio_buffer_accel_open device cb ud w1 = Done true w2 ->
  gsize_wrap (scan_size b) <= read_size_ctr w ->
  ~ partial_record_inv w2.
Proof.
  intros Hd Hclose Hnew Hopen Hle Hinv.
  apply (partial_record_inv_after_open device cb ud w1 w2 b Hnew Hopen)
    in Hinv.
  destruct (close_spec w d Hd) as (w1' & Hc & _ & _ & Hctr & _).
  rewrite Hc in Hclose. injection Hclose as <-. lia.
Qed.

End Properties.

(** ** The driver on the accelerometer layout *)

Example opened_world_is_session_world (stream : list ChanEvent) :
  opened_world stream = Done tt (session_world stream).
Proof. reflexivity. Qed.

Example partial_record_inv_session_world (stream : list ChanEvent) :
  partial_record_inv (session_world stream).
Proof.
  exists 6. split; [reflexivity | vm_compute; split; [discriminate | reflexivity]].
Qed.

(** C1, at the scan size 6: the two halves of one scan, read in two
    invocations (3 + 3 bytes, the sixth byte in the second), leave no
    callback call at all, although the stream has been read to its
    end. *)
Theorem split_scan_is_never_delivered :
  let run := invocations (U := layout_utils) 2 (session_world split_scan_stream) in
  read_calls run =
    Some [ Build_ReadCall 6 G_IO_STATUS_NORMAL scan_first_half;
           Build_ReadCall 3 G_IO_STATUS_AGAIN [];
           Build_ReadCall 3 G_IO_STATUS_NORMAL scan_second_half;
           Build_ReadCall 3 G_IO_STATUS_AGAIN [] ] /\
  stream_after run = Some [] /\
  deliveries run = Some [].
Proof. intros run. split; [| split]; vm_compute; reflexivity. Qed.

(** C2, at the scan size 6: after a first invocation that read 3
    bytes the counter is 3; the second invocation reads the other 3
    bytes, which brings the accumulated count to 6, and leaves the
    counter at 3, not at 0.  The last equation is the loop body alone,
    run at counter 3 after a read of 3 bytes. *)
Theorem counter_not_reset_at_record_end :
  let run n :=
    invocations (U := layout_utils) n (session_world split_scan_stream) in
  gsize_wrap (scan_size accel_buffer) = 6 /\
  counter_after (run 1%nat) = Some 3 /\
  read_calls (run 2%nat) =
    Some [ Build_ReadCall 6 G_IO_STATUS_NORMAL scan_first_half;
           Build_ReadCall 3 G_IO_STATUS_AGAIN [];
           Build_ReadCall 3 G_IO_STATUS_NORMAL scan_second_half;
           Build_ReadCall 3 G_IO_STATUS_AGAIN [] ] /\
  counter_after (run 2%nat) = Some 3 /\
  counter_after
    (loop_body (U := layout_utils) 6
       (Build_IIOSensorData 3 (Some (scan_second_half ++ scan_second_half)))
       (Build_IIOSensorData 0 None)
       (set_read_size_ctr 3 (session_world [])))
  = Some 3.
Proof.
  intros run. split; [| split; [| split; [| split]]]; vm_compute; reflexivity.
Qed.

(** Preservation on the session of [session_world]: the invariant
    holds on entry and after two invocations on the split scan. *)
Lemma partial_record_state_invariant_witness :
  partial_record_inv (session_world split_scan_stream) /\
  match invocations (U := layout_utils) 2 (session_world split_scan_stream) with
  | Done _ w' => partial_record_inv w'
  | Abort => True
  | Diverge => False
  end.
Proof.
  assert (H : partial_record_inv (session_world split_scan_stream)).
  { exists 6.
    split; [reflexivity | vm_compute; split; [discriminate | reflexivity]]. }
  split; [exact H |].
  exact (partial_record_state_invariant 2 (session_world split_scan_stream) H).
Defined.

(** Whole-record reads, on a burst of two whole scans followed by
    "would block". *)
Lemma scan_reader_delivers_latest_record_witness :
  let w := session_world
             [Chunk scan_10_20_30; Chunk scan_10_20_30; WouldBlock] in
  drv_data w = Some accel_session /\
  buffer_data accel_session = Some accel_buffer /\
  0 <= read_size_ctr w < gsize_wrap (scan_size accel_buffer) /\
  terminal_status (dev_stream w) = G_IO_STATUS_AGAIN /\
  exists w' new,
    read_orientation G_IO_IN w = Done true w' /\
    reads w' = reads w ++ new /\
    match latest_whole_record (gsize_wrap (scan_size accel_buffer)) new with
    | Some r =>
        delivered w' =
        delivered w ++
        [Build_CallbackCall (callback_func accel_session)
           (decode (env w) (Some (rc_bytes r)) (Some accel_buffer))
           (user_data accel_session)]
    | None => delivered w' = delivered w
    end.
Proof.
  intros w.
  assert (Hd : drv_data w = Some accel_session) by reflexivity.
  assert (Hb : buffer_data accel_session = Some accel_buffer) by reflexivity.
  assert (Hctr : 0 <= read_size_ctr w < gsize_wrap (scan_size accel_buffer))
    by (vm_compute; split; [discriminate | reflexivity]).
  assert (Hagain : terminal_status (dev_stream w) = G_IO_STATUS_AGAIN)
    by reflexivity.
  split; [exact Hd |]. split; [exact Hb |]. split; [exact Hctr |].
  split; [exact Hagain |].
  exact (scan_reader_delivers_latest_record (U := layout_utils)
           w accel_session accel_buffer Hd Hb Hctr Hagain).
Defined.

Example burst_delivers_one_reading :
  let run := read_orientation (U := layout_utils) G_IO_IN
               (session_world
                  [Chunk scan_10_20_30; Chunk scan_10_20_30; WouldBlock]) in
  deliveries run = Some [reading_10_20_30] /\
  read_calls run =
    Some [ Build_ReadCall 6 G_IO_STATUS_NORMAL scan_10_20_30;
           Build_ReadCall 6 G_IO_STATUS_NORMAL scan_10_20_30;
           Build_ReadCall 6 G_IO_STATUS_AGAIN [] ].
Proof. intros run. split; vm_compute; reflexivity. Qed.

(** C3, on a platform with two accelerometers whose scans are 6 and 4
    bytes long.  The first session reads five bytes of a scan and is
    closed inside the invariant, at counter 5 below the record size 6.
    The session then opened on the other sensor has the record size 4
    and still the counter 5: it starts outside the invariant, before any
    read of its own, and its first invocation asks the stream for
    4 - 5 bytes as a gsize, that is 2^64 - 1, into its block of 4. *)
Theorem reopened_session_starts_outside_invariant :
  record_size_after first_sensor_run = Some 6 /\
  counter_after first_sensor_run = Some 5 /\
  read_calls first_sensor_run =
    Some [ Build_ReadCall 6 G_IO_STATUS_NORMAL scan_five_bytes;
           Build_ReadCall 1 G_IO_STATUS_AGAIN [] ] /\
  record_size_after switched_sensor_run = Some 4 /\
  counter_after switched_sensor_run = Some 5 /\
  match switched_sensor_run with
  | Done _ w => ~ partial_record_inv w
  | _ => False
  end /\
  read_calls switched_sensor_notified =
    Some [ Build_ReadCall 6 G_IO_STATUS_NORMAL scan_five_bytes;
           Build_ReadCall 1 G_IO_STATUS_AGAIN [];
           Build_ReadCall 18446744073709551615 G_IO_STATUS_AGAIN [] ].
Proof.
  assert (Hsize : record_size_after switched_sensor_run = Some 4)
    by (vm_compute; reflexivity).
  assert (Hctr : counter_after switched_sensor_run = Some 5)
    by (vm_compute; reflexivity).
  split; [vm_compute; reflexivity |].
  split; [vm_compute; reflexivity |].
  split; [vm_compute; reflexivity |].
  split; [exact Hsize |]. split; [exact Hctr |].
  split; [| vm_compute; reflexivity].
  destruct switched_sensor_run as [r w | |]; try discriminate.
  simpl in Hsize, Hctr. injection Hctr as Hctr.
  intros (S & HS & Hin). rewrite Hsize in HS. injection HS as <-. lia.
Qed.

(** C4, at the scan size 6: within one invocation a first read brings 3
    bytes of the scan (10, 20, 30) and a second read the other 3, then
    the stream would block.  The invocation has read a complete record,
    the stream is at its end, and the callback has not been called; the
    counter stays at 3.  The same six bytes brought by one read are
    delivered. *)
Theorem record_completed_by_two_reads_is_not_delivered :
  let run := read_orientation (U := layout_utils) G_IO_IN
               (session_world two_read_scan_stream) in
  let whole := read_orientation (U := layout_utils) G_IO_IN
                 (session_world [Chunk scan_10_20_30; WouldBlock]) in
  scan_first_half ++ scan_second_half = scan_10_20_30 /\
  read_calls run =
    Some [ Build_ReadCall 6 G_IO_STATUS_NORMAL scan_first_half;
           Build_ReadCall 3 G_IO_STATUS_NORMAL scan_second_half;
           Build_ReadCall 3 G_IO_STATUS_AGAIN [] ] /\
  stream_after run = Some [] /\
  counter_after run = Some 3 /\
  deliveries run = Some [] /\
  read_calls whole =
    Some [ Build_ReadCall 6 G_IO_STATUS_NORMAL scan_10_20_30;
           Build_ReadCall 6 G_IO_STATUS_AGAIN [] ] /\
  deliveries whole = Some [reading_10_20_30].
Proof.
  intros run whole.
  split; [reflexivity |].
  split; [vm_compute; reflexivity |].
  split; [vm_compute; reflexivity |].
  split; [vm_compute; reflexivity |].
  split; [vm_compute; reflexivity |].
  split; vm_compute; reflexivity.
Qed.

(** C5, on the accelerometer layout and the scan (10, 20, 30). *)
Lemma decode_10_20_30_witness :
  (forall c, @process_scan_1 layout_utils (data scan_10_20_30_data)
               (buffer_data accel_session) "in_accel_x" c
             = (10, scale_0_1, true)) /\
  (forall c, @process_scan_1 layout_utils (data scan_10_20_30_data)
               (buffer_data accel_session) "in_accel_y" c
             = (20, scale_0_1, true)) /\
  (forall c, @process_scan_1 layout_utils (data scan_10_20_30_data)
               (buffer_data accel_session) "in_accel_z" c
             = (30, scale_0_1, true)) /\
  process_scan scan_10_20_30_data accel_session (session_world []) =
  Done 1
    (set_delivered (delivered (session_world []) ++ [reading_10_20_30])
       (session_world [])).
Proof.
  assert (Hx : forall c, @process_scan_1 layout_utils
                 (data scan_10_20_30_data) (buffer_data accel_session)
                 "in_accel_x" c = (10, scale_0_1, true))
    by (intros c; reflexivity).
  assert (Hy : forall c, @process_scan_1 layout_utils
                 (data scan_10_20_30_data) (buffer_data accel_session)
                 "in_accel_y" c = (20, scale_0_1, true))
    by (intros c; reflexivity).
  assert (Hz : forall c, @process_scan_1 layout_utils
                 (data scan_10_20_30_data) (buffer_data accel_session)
                 "in_accel_z" c = (30, scale_0_1, true))
    by (intros c; reflexivity).
  split; [exact Hx |]. split; [exact Hy |]. split; [exact Hz |].
  exact (decode_10_20_30 (U := layout_utils) scan_10_20_30_data accel_session
           (session_world []) Hx Hy Hz).
Defined.

(** C6, on the polling session of [session_world]. *)
Lemma set_polling_idempotent_witness :
  let w := session_world [] in
  polling_inv ∅ w /\
  (exists w1,
     iio_buffer_accel_set_polling true w = Done tt w1 /\
     size (registrations ∅ w1) = 1%nat /\
     iio_buffer_accel_set_polling true w1 = Done tt w1) /\
  (exists w0,
     iio_buffer_accel_set_polling false w = Done tt w0 /\
     size (registrations ∅ w0) = 0%nat /\
     iio_buffer_accel_set_polling false w0 = Done tt w0) /\
  (registrations ∅ w = ∅ ->
   iio_buffer_accel_set_polling false w = Done tt w) /\
  (forall bs : list bool,
     exists w', set_polling_seq bs w = Done tt w' /\
                (size (registrations ∅ w') <= 1)%nat).
Proof.
  intros w.
  assert (H : polling_inv ∅ w).
  { exists accel_session. split; [reflexivity |]. split; [by eexists |].
    split; [reflexivity |]. split.
    - intros id Hin. change (id ∈ ({[ 1 ]} : gset Z)) in Hin.
      apply elem_of_singleton in Hin. subst id. reflexivity.
    - right. split; [reflexivity |]. split; [apply not_elem_of_empty |].
      change (({[ 1 ]} : gset Z) = ∅ ∪ {[ 1 ]}). by rewrite (left_id_L ∅ (∪)). }
  split; [exact H |].
  exact (set_polling_idempotent (U := layout_utils) ∅ w H).
Defined.

Example polling_twice_registers_once :
  sources_after
    (set_polling_seq (U := layout_utils) [true; true] (session_world []))
  = Some [1] /\
  sources_after
    (set_polling_seq (U := layout_utils) [false; false] (session_world []))
  = Some [] /\
  sources_after
    (set_polling_seq (U := layout_utils) [false; true; true; false; true]
       (session_world []))
  = Some [3].
Proof. split; [| split]; vm_compute; reflexivity. Qed.

(** C8, on a platform whose channel refuses the encoding: [open]
    reaches the [g_error] of line 221 and the process ends there; no
    FALSE is returned and nothing is released. *)
Theorem open_aborts_on_encoding_failure :
  has_trigger bad_encoding_env accel_dev = true /\
  layout_buffer_drv_data_new accel_dev (trigger_name_of accel_dev)
  = Some accel_layout /\
  open_fails bad_encoding_env = false /\
  encoding_fails bad_encoding_env = true /\
  iio_buffer_accel_open (U := layout_utils) accel_dev 7%nat 9%nat
    (initial_world bad_encoding_env [])
  = Abort.
Proof. repeat split; vm_compute; reflexivity. Qed.

Example open_without_trigger :
  has_trigger no_trigger_env accel_dev = false /\
  iio_buffer_accel_open (U := layout_utils) accel_dev 7%nat 9%nat
    (initial_world no_trigger_env []) =
  Done false (initial_world no_trigger_env []).
Proof. split; reflexivity. Qed.

Example open_negotiation_refused :
  has_trigger numberless_env numberless_dev = true /\
  layout_buffer_drv_data_new numberless_dev (trigger_name_of numberless_dev)
  = None /\
  iio_buffer_accel_open (U := layout_utils) numberless_dev 7%nat 9%nat
    (initial_world numberless_env []) =
  Done false (initial_world numberless_env []).
Proof. split; [| split]; reflexivity. Qed.

(** C9, at the scan size 6: a first session delivers the whole scan it
    receives, with one read of 6 bytes; a session opened after a close
    that followed half a scan asks for 3 bytes at a time, because the
    counter is still 3, and delivers nothing of the whole scan it
    receives. *)
Theorem reopened_session_differs :
  deliveries first_session_run = Some [reading_10_20_30] /\
  read_calls first_session_run =
    Some [ Build_ReadCall 6 G_IO_STATUS_NORMAL scan_10_20_30;
           Build_ReadCall 6 G_IO_STATUS_AGAIN [] ] /\
  counter_after first_session_run = Some 0 /\
  deliveries second_session_run = Some [] /\
  read_calls second_session_run =
    Some [ Build_ReadCall 6 G_IO_STATUS_NORMAL scan_first_half;
           Build_ReadCall 3 G_IO_STATUS_AGAIN [];
           Build_ReadCall 3 G_IO_STATUS_NORMAL scan_first_half;
           Build_ReadCall 3 G_IO_STATUS_NORMAL scan_second_half;
           Build_ReadCall 3 G_IO_STATUS_AGAIN [] ] /\
  counter_after second_session_run = Some 3.
Proof. repeat split; vm_compute; reflexivity. Qed.

(** With three different scales, every axis carries the z scale; with
    no x channel the callback is still called, on the indeterminate
    value of the x cell. *)
Example mixed_scales_use_z_scale :
  deliveries
    (process_scan (U := layout_utils) scan_10_20_30_data
       (session_with mixed_scale_layout) (session_world []))
  = Some [Build_CallbackCall 7%nat
            (Build_AccelReadings (-5)%float (-10)%float 15%float) 9%nat].
Proof. vm_compute. reflexivity. Qed.

Example absent_channel_still_delivers :
  deliveries
    (process_scan (U := layout_utils)
       (Build_IIOSensorData 4 (Some [x14; x00; x1e; x00]))
       (session_with no_x_layout) junk_world)
  = Some [Build_CallbackCall 7%nat
            (Build_AccelReadings (-4)%float (-2)%float 3%float) 9%nat].
Proof. vm_compute. reflexivity. Qed.

(** With an empty scan every read asks for 0 bytes and returns NORMAL:
    the loop of [read_orientation] does not end. *)
Example empty_scan_never_returns :
  read_orientation (U := layout_utils) G_IO_IN empty_scan_world = Diverge.
Proof. reflexivity. Qed.

(** ** The further properties on the accelerometer layout *)

(** X2, on the trigger of [accel_dev]. *)
Lemma trigger_device_is_not_discovered_witness :
  g_udev_device_get_sysfs_attr accel_trigger "name"
  = Some (trigger_name_of accel_dev) /\
  iio_buffer_accel_discover (U := layout_utils) accel_trigger
    (initial_world good_env [])
  = Done false (initial_world good_env []).
Proof.
  assert (H : g_udev_device_get_sysfs_attr accel_trigger "name"
              = Some (trigger_name_of accel_dev)) by reflexivity.
  split; [exact H |].
  exact (trigger_device_is_not_discovered (U := layout_utils) accel_trigger
           accel_dev (initial_world good_env []) H).
Defined.

(** X3, on [accel_dev] at program start. *)
Lemma open_success_leaves_session_witness :
  let w := initial_world (U := layout_utils) good_env [] in
  has_trigger (env w) accel_dev = true /\
  @buffer_drv_data_new layout_utils accel_dev (trigger_name_of accel_dev) = Some accel_buffer /\
  udev_device_file accel_dev = Some "/dev/iio:device3" /\
  open_fails (env w) = false /\
  encoding_fails (env w) = false /\
  iio_buffer_accel_open accel_dev 7%nat 9%nat w =
  Done true
    (set_drv_data
       (Some (opened_session accel_dev 7%nat 9%nat accel_buffer
                "/dev/iio:device3" (negb (nonblock_fails (env w)))))
       (set_heap (session_heap (heap w)) w)).
Proof.
  intros w.
  assert (H1 : has_trigger (env w) accel_dev = true) by reflexivity.
  assert (H2 : @buffer_drv_data_new layout_utils accel_dev (trigger_name_of accel_dev)
               = Some accel_buffer) by reflexivity.
  assert (H3 : udev_device_file accel_dev = Some "/dev/iio:device3")
    by reflexivity.
  assert (H4 : open_fails (env w) = false) by reflexivity.
  assert (H5 : encoding_fails (env w) = false) by reflexivity.
  repeat (split; [assumption |]).
  exact (open_success_leaves_session (U := layout_utils) accel_dev 7%nat 9%nat
           w accel_buffer "/dev/iio:device3" H1 H2 H3 H4 H5).
Defined.

(** X4, on a platform without the trigger. *)
Lemma open_setup_failure_recovers_witness :
  let w := initial_world (U := layout_utils) no_trigger_env [] in
  (has_trigger (env w) accel_dev = false \/
   @buffer_drv_data_new layout_utils accel_dev (trigger_name_of accel_dev) = None) /\
  iio_buffer_accel_open accel_dev 7%nat 9%nat w
  = Done false (set_drv_data None w).
Proof.
  intros w.
  assert (H : has_trigger (env w) accel_dev = false \/
              @buffer_drv_data_new layout_utils accel_dev (trigger_name_of accel_dev) = None)
    by (left; reflexivity).
  split; [exact H |].
  exact (open_setup_failure_recovers (U := layout_utils) accel_dev 7%nat 9%nat
           w H).
Defined.

(** X5, on a platform whose device file cannot be opened. *)
Lemma open_stream_failure_aborts_witness :
  let w := initial_world (U := layout_utils) bad_open_env [] in
  has_trigger (env w) accel_dev = true /\
  @buffer_drv_data_new layout_utils accel_dev (trigger_name_of accel_dev) = Some accel_buffer /\
  udev_device_file accel_dev = Some "/dev/iio:device3" /\
  open_fails (env w) = true /\
  iio_buffer_accel_open accel_dev 7%nat 9%nat w = Abort.
Proof.
  intros w.
  assert (H1 : has_trigger (env w) accel_dev = true) by reflexivity.
  assert (H2 : @buffer_drv_data_new layout_utils accel_dev (trigger_name_of accel_dev)
               = Some accel_buffer) by reflexivity.
  assert (H3 : udev_device_file accel_dev = Some "/dev/iio:device3")
    by reflexivity.
  assert (H4 : open_fails (env w) = true) by reflexivity.
  repeat (split; [assumption |]).
  exact (open_stream_failure_aborts (U := layout_utils) accel_dev 7%nat 9%nat
           w accel_buffer "/dev/iio:device3" H1 H2 H3 H4).
Defined.

(** X6, on the polling session of [session_world]. *)
Lemma close_releases_session_witness :
  let w := session_world [] in
  drv_data w = Some accel_session /\
  iio_buffer_accel_close w =
  Done tt
    (set_drv_data None
       (set_heap (released accel_session (heap w))
          (set_sources
             (if io_source accel_session =? 0 then sources w
              else sources w ∖ {[io_source accel_session]})
             w))).
Proof.
  intros w.
  assert (H : drv_data w = Some accel_session) by reflexivity.
  split; [exact H |].
  exact (close_releases_session (U := layout_utils) w accel_session H).
Defined.

(** X7, on [accel_dev] at program start. *)
Lemma open_then_close_leaks_nothing_witness :
  let w := initial_world (U := layout_utils) good_env [] in
  has_trigger (env w) accel_dev = true /\
  @buffer_drv_data_new layout_utils accel_dev (trigger_name_of accel_dev) = Some accel_buffer /\
  udev_device_file accel_dev = Some "/dev/iio:device3" /\
  open_fails (env w) = false /\
  encoding_fails (env w) = false /\
  bind (iio_buffer_accel_open accel_dev 7%nat 9%nat)
    (fun _ => iio_buffer_accel_close) w
  = Done tt (set_drv_data None w).
Proof.
  intros w.
  assert (H1 : has_trigger (env w) accel_dev = true) by reflexivity.
  assert (H2 : @buffer_drv_data_new layout_utils accel_dev (trigger_name_of accel_dev)
               = Some accel_buffer) by reflexivity.
  assert (H3 : udev_device_file accel_dev = Some "/dev/iio:device3")
    by reflexivity.
  assert (H4 : open_fails (env w) = false) by reflexivity.
  assert (H5 : encoding_fails (env w) = false) by reflexivity.
  repeat (split; [assumption |]).
  exact (open_then_close_leaks_nothing (U := layout_utils) accel_dev 7%nat
           9%nat w accel_buffer "/dev/iio:device3" H1 H2 H3 H4 H5).
Defined.

(** X8, on [accel_dev] at program start. *)
Lemma open_poll_close_removes_watch_witness :
  let w := initial_world (U := layout_utils) good_env [] in
  has_trigger (env w) accel_dev = true /\
  @buffer_drv_data_new layout_utils accel_dev (trigger_name_of accel_dev) = Some accel_buffer /\
  udev_device_file accel_dev = Some "/dev/iio:device3" /\
  open_fails (env w) = false /\
  encoding_fails (env w) = false /\
  0 < next_source_id w /\
  (next_source_id w ∉ sources w) /\
  bind (iio_buffer_accel_open accel_dev 7%nat 9%nat)
    (fun _ => bind (iio_buffer_accel_set_polling true)
       (fun _ => iio_buffer_accel_close)) w
  = Done tt (set_next_source_id (next_source_id w + 1) (set_drv_data None w)).
Proof.
  intros w.
  assert (H1 : has_trigger (env w) accel_dev = true) by reflexivity.
  assert (H2 : @buffer_drv_data_new layout_utils accel_dev (trigger_name_of accel_dev)
               = Some accel_buffer) by reflexivity.
  assert (H3 : udev_device_file accel_dev = Some "/dev/iio:device3")
    by reflexivity.
  assert (H4 : open_fails (env w) = false) by reflexivity.
  assert (H5 : encoding_fails (env w) = false) by reflexivity.
  assert (H6 : 0 < next_source_id w) by reflexivity.
  assert (H7 : next_source_id w ∉ sources w) by apply not_elem_of_empty.
  repeat (split; [assumption |]).
  exact (open_poll_close_removes_watch (U := layout_utils) accel_dev 7%nat
           9%nat w accel_buffer "/dev/iio:device3" H1 H2 H3 H4 H5 H6 H7).
Defined.

(** X9, on the session right after [open]. *)
Lemma set_polling_on_off_round_trip_witness :
  let w := opened_only_world in
  drv_data w = Some idle_session /\
  io_source idle_session = 0 /\
  gio_r idle_session = Some (Build_GIOChannel "/dev/iio:device3" true) /\
  0 < next_source_id w /\
  (next_source_id w ∉ sources w) /\
  set_polling_seq [true; false] w
  = Done tt (set_next_source_id (next_source_id w + 1) w).
Proof.
  intros w.
  assert (H1 : drv_data w = Some idle_session) by reflexivity.
  assert (H2 : io_source idle_session = 0) by reflexivity.
  assert (H3 : gio_r idle_session
               = Some (Build_GIOChannel "/dev/iio:device3" true))
    by reflexivity.
  assert (H4 : 0 < next_source_id w) by reflexivity.
  assert (H5 : next_source_id w ∉ sources w) by apply not_elem_of_empty.
  repeat (split; [assumption |]).
  exact (set_polling_on_off_round_trip (U := layout_utils) w idle_session
           (Build_GIOChannel "/dev/iio:device3" true) H1 H2 H3 H4 H5).
Defined.

(** X10, on a stream that ends in EOF after one scan. *)
Lemma read_orientation_stops_on_eof_or_error_witness :
  let w := session_world [Chunk scan_10_20_30; Eof] in
  drv_data w = Some accel_session /\
  buffer_data accel_session = Some accel_buffer /\
  0 <= read_size_ctr w < gsize_wrap (scan_size accel_buffer) /\
  terminal_status (dev_stream w) <> G_IO_STATUS_AGAIN /\
  read_orientation G_IO_IN w = Abort /\
  read_orientation G_IO_HUP w = Abort.
Proof.
  intros w.
  assert (Hd : drv_data w = Some accel_session) by reflexivity.
  assert (Hb : buffer_data accel_session = Some accel_buffer) by reflexivity.
  assert (Hctr : 0 <= read_size_ctr w < gsize_wrap (scan_size accel_buffer))
    by (vm_compute; split; [discriminate | reflexivity]).
  assert (Hterm : terminal_status (dev_stream w) <> G_IO_STATUS_AGAIN)
    by discriminate.
  split; [exact Hd |]. split; [exact Hb |]. split; [exact Hctr |].
  split; [exact Hterm |].
  destruct (read_orientation_stops_on_eof_or_error (U := layout_utils)
              w accel_session accel_buffer Hd Hb Hctr) as (Heof & Hcond).
  split; [exact (Heof Hterm) | apply Hcond; discriminate].
Defined.

(** X11, on a burst of two scans. *)
Lemma read_orientation_frees_its_buffers_witness :
  let w := session_world
             [Chunk scan_10_20_30; Chunk scan_1_2_3; WouldBlock] in
  drv_data w = Some accel_session /\
  buffer_data accel_session = Some accel_buffer /\
  0 <= read_size_ctr w < gsize_wrap (scan_size accel_buffer) /\
  terminal_status (dev_stream w) = G_IO_STATUS_AGAIN /\
  exists w',
    read_orientation G_IO_IN w = Done true w' /\
    heap w' = heap w /\
    drv_data w' = drv_data w /\ env w' = env w /\
    sources w' = sources w /\ next_source_id w' = next_source_id w.
Proof.
  intros w.
  assert (Hd : drv_data w = Some accel_session) by reflexivity.
  assert (Hb : buffer_data accel_session = Some accel_buffer) by reflexivity.
  assert (Hctr : 0 <= read_size_ctr w < gsize_wrap (scan_size accel_buffer))
    by (vm_compute; split; [discriminate | reflexivity]).
  assert (Hagain : terminal_status (dev_stream w) = G_IO_STATUS_AGAIN)
    by reflexivity.
  split; [exact Hd |]. split; [exact Hb |]. split; [exact Hctr |].
  split; [exact Hagain |].
  exact (read_orientation_frees_its_buffers (U := layout_utils)
           w accel_session accel_buffer Hd Hb Hctr Hagain).
Defined.

(** X12, on the session with the empty scan. *)
Lemma empty_scan_hangs_witness :
  let w := empty_scan_world in
  drv_data w = Some (session_with empty_buffer) /\
  buffer_data (session_with empty_buffer) = Some empty_buffer /\
  gsize_wrap (scan_size empty_buffer) = 0 /\
  read_size_ctr w = 0 /\
  read_orientation G_IO_IN w = Diverge /\
  forall fuel,
    read_loop fuel (gsize_wrap (scan_size empty_buffer))
      (Build_IIOSensorData 0 None) (Build_IIOSensorData 0 None) w
    = Diverge.
Proof.
  intros w.
  assert (Hd : drv_data w = Some (session_with empty_buffer)) by reflexivity.
  assert (Hb : buffer_data (session_with empty_buffer) = Some empty_buffer)
    by reflexivity.
  assert (He : gsize_wrap (scan_size empty_buffer) = 0) by reflexivity.
  assert (Hc : read_size_ctr w = 0) by reflexivity.
  split; [exact Hd |]. split; [exact Hb |]. split; [exact He |].
  split; [exact Hc |].
  exact (empty_scan_hangs (U := layout_utils) w (session_with empty_buffer)
           empty_buffer Hd Hb He Hc).
Defined.

(** X13, on a session with half a record counted and two whole scans
    to come. *)
Lemma partial_read_blocks_later_deliveries_witness :
  let w := half_read_world
             [Chunk scan_10_20_30; WouldBlock; Chunk scan_1_2_3; WouldBlock] in
  drv_data w = Some accel_session /\
  buffer_data accel_session = Some accel_buffer /\
  0 < read_size_ctr w < gsize_wrap (scan_size accel_buffer) /\
  match invocations 2 w with
  | Done _ w' =>
      delivered w' = delivered w /\
      read_size_ctr w <= read_size_ctr w' < gsize_wrap (scan_size accel_buffer)
  | Abort => True
  | Diverge => False
  end.
Proof.
  intros w.
  assert (Hd : drv_data w = Some accel_session) by reflexivity.
  assert (Hb : buffer_data accel_session = Some accel_buffer) by reflexivity.
  assert (Hctr : 0 < read_size_ctr w < gsize_wrap (scan_size accel_buffer))
    by (vm_compute; split; reflexivity).
  split; [exact Hd |]. split; [exact Hb |]. split; [exact Hctr |].
  exact (partial_read_blocks_later_deliveries (U := layout_utils) 2 w
           accel_session accel_buffer Hd Hb Hctr).
Defined.

(** X14, on a burst of two scans. *)
Lemma aligned_burst_is_delivered_witness :
  let w := session_world
             [Chunk scan_10_20_30; Chunk scan_1_2_3; WouldBlock] in
  let recs := [scan_10_20_30; scan_1_2_3] in
  drv_data w = Some accel_session /\
  buffer_data accel_session = Some accel_buffer /\
  Forall (fun r => Z.of_nat (length r) = gsize_wrap (scan_size accel_buffer))
    recs /\
  0 < gsize_wrap (scan_size accel_buffer) /\
  read_size_ctr w = 0 /\
  dev_stream w = map Chunk recs ++ WouldBlock :: [] /\
  exists w',
    read_orientation G_IO_IN w = Done true w' /\
    read_size_ctr w' = 0 /\
    dev_stream w' = [] /\
    reads w' =
      reads w ++
      map (Build_ReadCall (gsize_wrap (scan_size accel_buffer))
             G_IO_STATUS_NORMAL) recs ++
      [Build_ReadCall (gsize_wrap (scan_size accel_buffer))
         G_IO_STATUS_AGAIN []] /\
    delivered w' =
      delivered w ++
      match last recs with
      | Some r =>
          [Build_CallbackCall (callback_func accel_session)
             (decode (env w) (Some r) (Some accel_buffer))
             (user_data accel_session)]
      | None => []
      end.
Proof.
  intros w recs.
  assert (Hd : drv_data w = Some accel_session) by reflexivity.
  assert (Hb : buffer_data accel_session = Some accel_buffer) by reflexivity.
  assert (Hall : Forall (fun r => Z.of_nat (length r)
                                  = gsize_wrap (scan_size accel_buffer)) recs)
    by (repeat constructor).
  assert (Hpos : 0 < gsize_wrap (scan_size accel_buffer)) by reflexivity.
  assert (Hctr : read_size_ctr w = 0) by reflexivity.
  assert (Hstr : dev_stream w = map Chunk recs ++ WouldBlock :: [])
    by reflexivity.
  split; [exact Hd |]. split; [exact Hb |]. split; [exact Hall |].
  split; [exact Hpos |]. split; [exact Hctr |]. split; [exact Hstr |].
  exact (aligned_burst_is_delivered (U := layout_utils) w accel_session
           accel_buffer recs [] Hd Hb Hall Hpos Hctr Hstr).
Defined.

(** X15, on a burst of one scan followed by a burst of two. *)
Lemma aligned_stream_delivers_each_burst_witness :
  let bursts := [[scan_10_20_30]; [scan_10_20_30; scan_1_2_3]] in
  let w := session_world (burst_stream bursts ++ []) in
  drv_data w = Some accel_session /\
  buffer_data accel_session = Some accel_buffer /\
  Forall (Forall (fun r => Z.of_nat (length r)
                           = gsize_wrap (scan_size accel_buffer))) bursts /\
  0 < gsize_wrap (scan_size accel_buffer) /\
  read_size_ctr w = 0 /\
  dev_stream w = burst_stream bursts ++ [] /\
  exists w',
    invocations (length bursts) w = Done tt w' /\
    read_size_ctr w' = 0 /\
    dev_stream w' = [] /\
    delivered w' =
      delivered w ++ burst_deliveries (env w) accel_session accel_buffer bursts.
Proof.
  intros bursts w.
  assert (Hd : drv_data w = Some accel_session) by reflexivity.
  assert (Hb : buffer_data accel_session = Some accel_buffer) by reflexivity.
  assert (Hall : Forall (Forall (fun r => Z.of_nat (length r)
                                  = gsize_wrap (scan_size accel_buffer)))
                   bursts)
    by (repeat constructor).
  assert (Hpos : 0 < gsize_wrap (scan_size accel_buffer)) by reflexivity.
  assert (Hctr : read_size_ctr w = 0) by reflexivity.
  assert (Hstr : dev_stream w = burst_stream bursts ++ []) by reflexivity.
  split; [exact Hd |]. split; [exact Hb |]. split; [exact Hall |].
  split; [exact Hpos |]. split; [exact Hctr |]. split; [exact Hstr |].
  exact (aligned_stream_delivers_each_burst (U := layout_utils) w accel_session
           accel_buffer bursts [] Hd Hb Hall Hpos Hctr Hstr).
Defined.

Example aligned_stream_readings :
  deliveries
    (invocations (U := layout_utils) 2
       (session_world
          (burst_stream [[scan_10_20_30]; [scan_10_20_30; scan_1_2_3]])))
  = Some [ reading_10_20_30;
           Build_CallbackCall 7%nat
             (Build_AccelReadings (-0x1.999999999999ap-4)%float
                (-0x1.999999999999ap-3)%float 0x1.3333333333334p-2%float)
             9%nat ].
Proof. vm_compute. reflexivity. Qed.
